(** * Crocoddyl core: the LQR action model and the RK4 quadratic control
      parametrization

    A shallow embedding of
      - [include/crocoddyl/core/actions/lqr.hxx]
        ([ActionModelLQRTpl<Scalar>]) and
      - [include/crocoddyl/core/controls/poly-two-rk4.hxx]
        ([ControlParametrizationModelPolyTwoRK4Tpl<Scalar>]).

    Both classes are templates over [Scalar].  The development is generic in
    the scalar type as well: [ScalarType] is any type with the operations
    the code uses, with no law assumed, so that the embedding runs with
    [Scalar = double] (the instance [Binary64], IEEE 754 binary64) as it runs
    with the rationals (the instance [Qc]).  The laws of exact arithmetic are
    a separate hypothesis, [ExactArithmetic]: the rationals have them and
    [double] does not.  A section that declares it in its [Context] hands it
    to the theorems whose proofs use a ring law, and to those only.

    Mutation is modelled by explicit state passing in a small
    state-and-exception monad: a member function that mutates an object is a
    computation over that object; [throw_pretty] leaves the state as it was
    at the time of the throw. *)

From Stdlib Require Import String.
From Stdlib Require Import List Arith Bool Lia Ring ZArith.
From Stdlib Require DecimalString.
From Stdlib Require QArith Qcanon.
From Stdlib Require PrimFloat.
Import ListNotations.

Set Implicit Arguments.

(* ------------------------------------------------------------------ *)
(** * The scalar type *)

(** [template <typename Scalar>]: the operations the two classes use on
    scalars.  [shalf] is [Scalar(0.5)].  No law is part of the type: the
    operations of [double] round. *)
Class ScalarType : Type := {
  Scalar : Type;
  szero : Scalar;
  sone : Scalar;
  sadd : Scalar -> Scalar -> Scalar;
  smul : Scalar -> Scalar -> Scalar;
  ssub : Scalar -> Scalar -> Scalar;
  sopp : Scalar -> Scalar;
  shalf : Scalar
}.

(** The laws of exact arithmetic on a scalar type: those of a commutative
    ring, and [0.5 + 0.5 = 1].  They hold for the rationals and fail for
    [double]. *)
Class ExactArithmetic (F : ScalarType) : Prop := {
  Scalar_ring : ring_theory szero sone sadd smul ssub sopp (@eq Scalar);
  shalf_double : sadd shalf shalf = sone
}.

Declare Scope scalar_scope.
Delimit Scope scalar_scope with S.
Bind Scope scalar_scope with Scalar.
Notation "0" := szero : scalar_scope.
Notation "1" := sone : scalar_scope.
Notation "2" := (sadd sone sone) : scalar_scope.
Infix "+" := sadd : scalar_scope.
Infix "*" := smul : scalar_scope.
Infix "-" := ssub : scalar_scope.
Notation "- x" := (sopp x) : scalar_scope.

(* ------------------------------------------------------------------ *)
(** * Exceptions and the state-and-exception monad *)

Module Except.

(** [crocoddyl::Exception]: the only exception class of the library (the
    spec's [InvalidArgument]).  Only the message is kept; function, file and
    line are dropped. *)
Record Exception : Type := mkException { what : string }.

(** [std::to_string] on a size. *)
Definition to_string (n : nat) : string :=
  DecimalString.NilEmpty.string_of_uint (Nat.to_uint n).

Inductive Outcome (A : Type) : Type :=
| Returned (a : A)
| Thrown (e : Exception).
Arguments Thrown {A} e.

(** A member function over the mutable object of type [St]. *)
Definition Stateful (St A : Type) : Type := St -> Outcome A * St.

Definition ret {St A : Type} (a : A) : Stateful St A :=
  fun s => (Returned a, s).

Definition bind {St A B : Type} (c : Stateful St A) (k : A -> Stateful St B)
  : Stateful St B :=
  fun s =>
    match c s with
    | (Returned a, s') => k a s'
    | (Thrown e, s') => (Thrown e, s')
    end.

Definition gets {St A : Type} (f : St -> A) : Stateful St A :=
  fun s => (Returned (f s), s).

Definition modify {St : Type} (f : St -> St) : Stateful St unit :=
  fun s => (Returned tt, f s).

(** [throw_pretty(m)]: throws [crocoddyl::Exception] with message [m]. *)
Definition throw_pretty {St A : Type} (m : string) : Stateful St A :=
  fun s => (Thrown (mkException m), s).

(** [if (cond) { body }] *)
Definition when {St : Type} (cond : bool) (body : Stateful St unit)
  : Stateful St unit :=
  if cond then body else ret tt.

(** Modelled from the spec: [crocoddyl/core/utils/exception.hpp] is not among
    the sources.  [assert_pretty(condition, m)] throws the library's single
    error kind when the condition fails; in a build with [NDEBUG] it expands
    to nothing. *)
Definition assert_pretty {St : Type} (NDEBUG : bool) (condition : bool)
  (m : string) : Stateful St unit :=
  if NDEBUG then ret tt else when (negb condition) (throw_pretty m).

(** The spec's single error kind: any [crocoddyl::Exception]. *)
Definition InvalidArgument {A St : Type} (r : Outcome A * St) : Prop :=
  exists e, fst r = Thrown e.

End Except.
Import Except.

Notation "x <- c1 ;; c2" := (bind c1 (fun x => c2))
  (at level 61, c1 at next level, right associativity).
Notation "c1 ;; c2" := (bind c1 (fun _ => c2))
  (at level 61, right associativity).

(* ------------------------------------------------------------------ *)
(** * Dense vectors and matrices (the part of Eigen the code uses) *)

Module Eigen.
Section WithScalar.
Context {F : ScalarType}.

(** [VectorXs]: a dynamically sized column vector. *)
Definition VectorXs : Type := list Scalar.

(** [MatrixXs]: a dynamically sized matrix, kept as the list of its rows
    together with both dimensions (a matrix with no row still has a number
    of columns). *)
Record MatrixXs : Type := mkMatrix {
  rows : nat;
  cols : nat;
  coeffs : list (list Scalar)
}.

(** [v(i)] and [M(i,j)]. *)
Definition vget (v : VectorXs) (i : nat) : Scalar := nth i v 0%S.
Definition get (M : MatrixXs) (i j : nat) : Scalar :=
  nth j (nth i (coeffs M) []) 0%S.

(** Coefficient-wise evaluation of an expression into a fresh vector or
    matrix. *)
Definition mk_vector (n : nat) (f : nat -> Scalar) : VectorXs :=
  map f (seq 0 n).
Definition mk_matrix (r c : nat) (f : nat -> nat -> Scalar) : MatrixXs :=
  mkMatrix r c (map (fun i => map (f i) (seq 0 c)) (seq 0 r)).

(** The storage agrees with the dimensions. *)
Definition wf_matrix (M : MatrixXs) : Prop :=
  length (coeffs M) = rows M /\
  Forall (fun row => length row = cols M) (coeffs M).

(** [sum_{k < n} f k] *)
Fixpoint sum_n (n : nat) (f : nat -> Scalar) : Scalar :=
  match n with
  | O => 0%S
  | S k => (sum_n k f + f k)%S
  end.

Definition Zero_vec (n : nat) : VectorXs := mk_vector n (fun _ => 0%S).
Definition Ones_vec (n : nat) : VectorXs := mk_vector n (fun _ => 1%S).
Definition Zero (r c : nat) : MatrixXs := mk_matrix r c (fun _ _ => 0%S).
Definition Identity (r c : nat) : MatrixXs :=
  mk_matrix r c (fun i j => if i =? j then 1%S else 0%S).

(** [a.dot(b)] *)
Definition dot (a b : VectorXs) : Scalar :=
  sum_n (length a) (fun i => vget a i * vget b i)%S.

(** [a + b], also the value [a += b] leaves in [a]. *)
Definition vadd (a b : VectorXs) : VectorXs :=
  mk_vector (length a) (fun i => vget a i + vget b i)%S.

(** [c * v] *)
Definition vscale (c : Scalar) (v : VectorXs) : VectorXs :=
  mk_vector (length v) (fun i => c * vget v i)%S.

(** [M * v] *)
Definition mat_vec (M : MatrixXs) (v : VectorXs) : VectorXs :=
  mk_vector (rows M) (fun i => sum_n (cols M) (fun j => get M i j * vget v j)%S).

(** [A * B] *)
Definition mat_mul (A B : MatrixXs) : MatrixXs :=
  mk_matrix (rows A) (cols B)
    (fun i j => sum_n (cols A) (fun k => get A i k * get B k j)%S).

(** [M.transpose()] *)
Definition transpose (M : MatrixXs) : MatrixXs :=
  mk_matrix (cols M) (rows M) (fun i j => get M j i).

(** [c * M] *)
Definition mscale (c : Scalar) (M : MatrixXs) : MatrixXs :=
  mk_matrix (rows M) (cols M) (fun i j => c * get M i j)%S.

(** [v.segment(start, n)], [v.head(n)], [v.tail(n)] read as values. *)
Definition segment (v : VectorXs) (start n : nat) : VectorXs :=
  mk_vector n (fun i => vget v (start + i)).
Definition head (v : VectorXs) (n : nat) : VectorXs := segment v 0 n.
Definition tail (v : VectorXs) (n : nat) : VectorXs :=
  segment v (length v - n) n.

(** [v.segment(start, n) = src]: the vector [v] after the write. *)
Definition segment_assign (v : VectorXs) (start n : nat) (src : VectorXs)
  : VectorXs :=
  mk_vector (length v)
    (fun i => if (start <=? i) && (i <? start + n)
              then vget src (i - start) else vget v i).
Definition head_assign (v : VectorXs) (n : nat) (src : VectorXs) : VectorXs :=
  segment_assign v 0 n src.
Definition tail_assign (v : VectorXs) (n : nat) (src : VectorXs) : VectorXs :=
  segment_assign v (length v - n) n src.

(** A rectangular view [M.block(startRow, startCol, blockRows, blockCols)]. *)
Record Block : Type := mkBlock {
  startRow : nat;
  startCol : nat;
  blockRows : nat;
  blockCols : nat
}.

Definition leftCols (M : MatrixXs) (n : nat) : Block :=
  mkBlock 0 0 (rows M) n.
Definition middleCols (M : MatrixXs) (start n : nat) : Block :=
  mkBlock 0 start (rows M) n.
Definition rightCols (M : MatrixXs) (n : nat) : Block :=
  mkBlock 0 (cols M - n) (rows M) n.
Definition topRows (M : MatrixXs) (n : nat) : Block :=
  mkBlock 0 0 n (cols M).
Definition middleRows (M : MatrixXs) (start n : nat) : Block :=
  mkBlock start 0 n (cols M).
Definition bottomRows (M : MatrixXs) (n : nat) : Block :=
  mkBlock (rows M - n) 0 n (cols M).

Definition in_block (b : Block) (i j : nat) : bool :=
  (startRow b <=? i) && (i <? startRow b + blockRows b) &&
  (startCol b <=? j) && (j <? startCol b + blockCols b).

(** [view = src], [view += src], [view -= src] for a block view of [M]:
    [upd old new] is the coefficient written where the old one was [old] and
    the source has [new]. *)
Definition block_update (upd : Scalar -> Scalar -> Scalar)
  (M : MatrixXs) (b : Block) (src : MatrixXs) : MatrixXs :=
  mk_matrix (rows M) (cols M)
    (fun i j => if in_block b i j
                then upd (get M i j) (get src (i - startRow b) (j - startCol b))
                else get M i j).

Definition block_assign := block_update (fun _ new => new).
Definition block_add := block_update (fun old new => (old + new)%S).
Definition block_sub := block_update (fun old new => (old - new)%S).

(** [view.diagonal().array() = c] for a block view of [M]. *)
Definition block_diagonal_fill (M : MatrixXs) (b : Block) (c : Scalar)
  : MatrixXs :=
  mk_matrix (rows M) (cols M)
    (fun i j => if in_block b i j && (i - startRow b =? j - startCol b)
                then c else get M i j).

(** [H << Q, N, Nt, R]: the comma initializer fills [H] block by block, the
    first two side by side at the top, the next two below them. *)
Definition comma_init4 (H Q N Nt R : MatrixXs) : MatrixXs :=
  mk_matrix (rows H) (cols H)
    (fun i j =>
       if i <? rows Q
       then (if j <? cols Q then get Q i j else get N i (j - cols Q))
       else (if j <? cols Nt then get Nt (i - rows Q) j
             else get R (i - rows Q) (j - cols Nt))).

(** [M] equals its transpose, coefficient by coefficient. *)
Definition symmetric (M : MatrixXs) : Prop :=
  forall i j, i < rows M -> j < cols M -> get M i j = get M j i.

(** The matrix [out] after [out = P], [out += P] or [out -= P], for [P] of
    the size of [out]. *)
Definition accumulate (upd : Scalar -> Scalar -> Scalar) (out P : MatrixXs)
  : MatrixXs :=
  mk_matrix (rows out) (cols out) (fun i j => upd (get out i j) (get P i j)).

End WithScalar.

(** The two Eigen routines [set_LQR] calls and whose code is Eigen's, not
    this library's: [a.isApprox(b)] and the status of the Cholesky
    factorisation [Eigen::LLT<MatrixXs>(H).info() == Eigen::NumericalIssue]. *)
Class Numerics {F : ScalarType} : Type := {
  isApprox : MatrixXs -> MatrixXs -> bool;
  LLT_info_is_NumericalIssue : MatrixXs -> bool
}.

End Eigen.
Import Eigen.

Notation "a +v b" := (vadd a b) (at level 50, left associativity).
Notation "c *: v" := (vscale c v) (at level 40, left associativity).
Notation "M *v v" := (mat_vec M v) (at level 40, left associativity).

(* ------------------------------------------------------------------ *)
(** * [ActionModelLQRTpl<Scalar>]  (core/actions/lqr.hxx) *)

Module ActionModelLQR.
Section WithScalar.
Context {F : ScalarType} {E : Numerics}.

(** The model object: [state_->get_nx()], [nu_] of the base class and the
    members of the class.  [H_] is the private scratch matrix of [set_LQR];
    it has no accessor. *)
Record Model : Type := mkModel {
  nx : nat;
  nu_ : nat;
  drift_free_ : bool;
  A_ : MatrixXs;
  B_ : MatrixXs;
  Q_ : MatrixXs;
  R_ : MatrixXs;
  N_ : MatrixXs;
  f_ : VectorXs;
  q_ : VectorXs;
  r_ : VectorXs;
  H_ : MatrixXs
}.

(** The accessors [get_A() ... get_r()]. *)
Definition get_A (m : Model) := A_ m.
Definition get_B (m : Model) := B_ m.
Definition get_f (m : Model) := f_ m.
Definition get_Q (m : Model) := Q_ m.
Definition get_R (m : Model) := R_ m.
Definition get_N (m : Model) := N_ m.
Definition get_q (m : Model) := q_ m.
Definition get_r (m : Model) := r_ m.

(** Assignments to one member. *)
Definition set_A (v : MatrixXs) (m : Model) : Model :=
  mkModel (nx m) (nu_ m) (drift_free_ m) v (B_ m) (Q_ m) (R_ m) (N_ m)
          (f_ m) (q_ m) (r_ m) (H_ m).
Definition set_B (v : MatrixXs) (m : Model) : Model :=
  mkModel (nx m) (nu_ m) (drift_free_ m) (A_ m) v (Q_ m) (R_ m) (N_ m)
          (f_ m) (q_ m) (r_ m) (H_ m).
Definition set_Q (v : MatrixXs) (m : Model) : Model :=
  mkModel (nx m) (nu_ m) (drift_free_ m) (A_ m) (B_ m) v (R_ m) (N_ m)
          (f_ m) (q_ m) (r_ m) (H_ m).
Definition set_R (v : MatrixXs) (m : Model) : Model :=
  mkModel (nx m) (nu_ m) (drift_free_ m) (A_ m) (B_ m) (Q_ m) v (N_ m)
          (f_ m) (q_ m) (r_ m) (H_ m).
Definition set_N (v : MatrixXs) (m : Model) : Model :=
  mkModel (nx m) (nu_ m) (drift_free_ m) (A_ m) (B_ m) (Q_ m) (R_ m) v
          (f_ m) (q_ m) (r_ m) (H_ m).
Definition set_f (v : VectorXs) (m : Model) : Model :=
  mkModel (nx m) (nu_ m) (drift_free_ m) (A_ m) (B_ m) (Q_ m) (R_ m) (N_ m)
          v (q_ m) (r_ m) (H_ m).
Definition set_q (v : VectorXs) (m : Model) : Model :=
  mkModel (nx m) (nu_ m) (drift_free_ m) (A_ m) (B_ m) (Q_ m) (R_ m) (N_ m)
          (f_ m) v (r_ m) (H_ m).
Definition set_r (v : VectorXs) (m : Model) : Model :=
  mkModel (nx m) (nu_ m) (drift_free_ m) (A_ m) (B_ m) (Q_ m) (R_ m) (N_ m)
          (f_ m) (q_ m) v (H_ m).
Definition set_H (v : MatrixXs) (m : Model) : Model :=
  mkModel (nx m) (nu_ m) (drift_free_ m) (A_ m) (B_ m) (Q_ m) (R_ m) (N_ m)
          (f_ m) (q_ m) (r_ m) v.

(** The data object: the buffers of [ActionDataAbstract] that the model
    writes, and the two scratch vectors of [ActionDataLQR]. *)
Record Data : Type := mkData {
  xnext : VectorXs;
  cost : Scalar;
  Fx : MatrixXs;
  Fu : MatrixXs;
  Lx : VectorXs;
  Lu : VectorXs;
  Lxx : MatrixXs;
  Luu : MatrixXs;
  Lxu : MatrixXs;
  R_u_tmp : VectorXs;
  Q_x_tmp : VectorXs
}.

Definition set_xnext (v : VectorXs) (d : Data) : Data :=
  mkData v (cost d) (Fx d) (Fu d) (Lx d) (Lu d) (Lxx d) (Luu d) (Lxu d)
         (R_u_tmp d) (Q_x_tmp d).
Definition set_cost (v : Scalar) (d : Data) : Data :=
  mkData (xnext d) v (Fx d) (Fu d) (Lx d) (Lu d) (Lxx d) (Luu d) (Lxu d)
         (R_u_tmp d) (Q_x_tmp d).
Definition set_Fx (v : MatrixXs) (d : Data) : Data :=
  mkData (xnext d) (cost d) v (Fu d) (Lx d) (Lu d) (Lxx d) (Luu d) (Lxu d)
         (R_u_tmp d) (Q_x_tmp d).
Definition set_Fu (v : MatrixXs) (d : Data) : Data :=
  mkData (xnext d) (cost d) (Fx d) v (Lx d) (Lu d) (Lxx d) (Luu d) (Lxu d)
         (R_u_tmp d) (Q_x_tmp d).
Definition set_Lx (v : VectorXs) (d : Data) : Data :=
  mkData (xnext d) (cost d) (Fx d) (Fu d) v (Lu d) (Lxx d) (Luu d) (Lxu d)
         (R_u_tmp d) (Q_x_tmp d).
Definition set_Lu (v : VectorXs) (d : Data) : Data :=
  mkData (xnext d) (cost d) (Fx d) (Fu d) (Lx d) v (Lxx d) (Luu d) (Lxu d)
         (R_u_tmp d) (Q_x_tmp d).
Definition set_Lxx (v : MatrixXs) (d : Data) : Data :=
  mkData (xnext d) (cost d) (Fx d) (Fu d) (Lx d) (Lu d) v (Luu d) (Lxu d)
         (R_u_tmp d) (Q_x_tmp d).
Definition set_Luu (v : MatrixXs) (d : Data) : Data :=
  mkData (xnext d) (cost d) (Fx d) (Fu d) (Lx d) (Lu d) (Lxx d) v (Lxu d)
         (R_u_tmp d) (Q_x_tmp d).
Definition set_Lxu (v : MatrixXs) (d : Data) : Data :=
  mkData (xnext d) (cost d) (Fx d) (Fu d) (Lx d) (Lu d) (Lxx d) (Luu d) v
         (R_u_tmp d) (Q_x_tmp d).
Definition set_R_u_tmp (v : VectorXs) (d : Data) : Data :=
  mkData (xnext d) (cost d) (Fx d) (Fu d) (Lx d) (Lu d) (Lxx d) (Luu d)
         (Lxu d) v (Q_x_tmp d).
Definition set_Q_x_tmp (v : VectorXs) (d : Data) : Data :=
  mkData (xnext d) (cost d) (Fx d) (Fu d) (Lx d) (Lu d) (Lxx d) (Luu d)
         (Lxu d) (R_u_tmp d) v.

Definition wrong_dimension (name : string) (n : nat) : string :=
  ("Invalid argument: " ++ name ++ " has wrong dimension (it should be "
     ++ to_string n ++ ")")%string.

(** [calc(data, x, u)] *)
Definition calc (m : Model) (x u : VectorXs) : Stateful Data unit :=
  when (negb (length x =? nx m))
       (throw_pretty (wrong_dimension "x" (nx m))) ;;
  when (negb (length u =? nu_ m))
       (throw_pretty (wrong_dimension "u" (nu_ m))) ;;
  modify (fun d => set_xnext (A_ m *v x) d) ;;
  modify (fun d => set_xnext (xnext d +v B_ m *v u) d) ;;
  modify (fun d => set_xnext (xnext d +v f_ m) d) ;;
  modify (fun d => set_Q_x_tmp (Q_ m *v x) d) ;;
  modify (fun d => set_cost (shalf * dot x (Q_x_tmp d))%S d) ;;
  modify (fun d => set_R_u_tmp (R_ m *v u) d) ;;
  modify (fun d => set_cost (cost d + shalf * dot u (R_u_tmp d))%S d) ;;
  modify (fun d => set_Q_x_tmp (N_ m *v u) d) ;;
  modify (fun d => set_cost (cost d + dot x (Q_x_tmp d))%S d) ;;
  modify (fun d => set_cost (cost d + dot (q_ m) x)%S d) ;;
  modify (fun d => set_cost (cost d + dot (r_ m) u)%S d).

(** [calc(data, x)], the terminal form *)
Definition calc_terminal (m : Model) (x : VectorXs) : Stateful Data unit :=
  when (negb (length x =? nx m))
       (throw_pretty (wrong_dimension "x" (nx m))) ;;
  modify (fun d => set_xnext x d) ;;
  modify (fun d => set_Q_x_tmp (Q_ m *v x) d) ;;
  modify (fun d => set_cost (shalf * dot x (Q_x_tmp d))%S d) ;;
  modify (fun d => set_cost (cost d + dot (q_ m) x)%S d).

(** [calcDiff(data, x, u)] *)
Definition calcDiff (m : Model) (x u : VectorXs) : Stateful Data unit :=
  when (negb (length x =? nx m))
       (throw_pretty (wrong_dimension "x" (nx m))) ;;
  when (negb (length u =? nu_ m))
       (throw_pretty (wrong_dimension "u" (nu_ m))) ;;
  modify (fun d => set_Fx (A_ m) d) ;;
  modify (fun d => set_Fu (B_ m) d) ;;
  modify (fun d => set_Lxx (Q_ m) d) ;;
  modify (fun d => set_Luu (R_ m) d) ;;
  modify (fun d => set_Lxu (N_ m) d) ;;
  modify (fun d => set_Lx (q_ m) d) ;;
  modify (fun d => set_Lx (Lx d +v Q_ m *v x) d) ;;
  modify (fun d => set_Lx (Lx d +v N_ m *v u) d) ;;
  modify (fun d => set_Lu (r_ m) d) ;;
  modify (fun d => set_Lu (Lu d +v transpose (N_ m) *v x) d) ;;
  modify (fun d => set_Lu (Lu d +v R_ m *v u) d).

(** [calcDiff(data, x)], the terminal form *)
Definition calcDiff_terminal (m : Model) (x : VectorXs) : Stateful Data unit :=
  when (negb (length x =? nx m))
       (throw_pretty (wrong_dimension "x" (nx m))) ;;
  modify (fun d => set_Lxx (Q_ m) d) ;;
  modify (fun d => set_Lx (q_ m) d) ;;
  modify (fun d => set_Lx (Lx d +v Q_ m *v x) d).

(** [set_LQR(A, B, Q, R, N, f, q, r)], a computation over the model. *)
Definition set_LQR (A B Q R N : MatrixXs) (f q r : VectorXs)
  : Stateful Model unit :=
  nx <- gets nx ;;
  nu_ <- gets nu_ ;;
  when (negb (rows A =? nx))
    (throw_pretty ("Invalid argument: "
       ++ "A should be a squared matrix with size " ++ to_string nx)%string) ;;
  when (negb (rows B =? nx))
    (throw_pretty ("Invalid argument: "
       ++ "B has wrong dimension (it should have " ++ to_string nx
       ++ " rows)")%string) ;;
  when (negb (rows Q =? nx) || negb (cols Q =? nx))
    (throw_pretty ("Invalid argument: "
       ++ "Q has wrong dimension (it should be " ++ to_string nx ++ "x "
       ++ to_string nx ++ ")")%string) ;;
  when (negb (rows R =? nu_) || negb (cols R =? nu_))
    (throw_pretty ("Invalid argument: "
       ++ "R has wrong dimension (it should be " ++ to_string nu_ ++ "x "
       ++ to_string nu_ ++ ")")%string) ;;
  when (negb (rows N =? nx) || negb (cols N =? nu_))
    (throw_pretty ("Invalid argument: "
       ++ "N has wrong dimension (it should be " ++ to_string nx ++ "x "
       ++ to_string nu_ ++ ")")%string) ;;
  when (negb (length f =? nx)) (throw_pretty (wrong_dimension "f" nx)) ;;
  when (negb (length q =? nx)) (throw_pretty (wrong_dimension "q" nx)) ;;
  when (negb (length r =? nu_)) (throw_pretty (wrong_dimension "r" nu_)) ;;
  modify (set_H (Zero (nx + nu_) (nx + nu_))) ;;
  modify (fun m => set_H (comma_init4 (H_ m) Q N (transpose N) R) m) ;;
  H <- gets H_ ;;
  when (negb (isApprox H (transpose H)) || LLT_info_is_NumericalIssue H)
    (throw_pretty ("Invalid argument "
       ++ "[Q, N; N.T, R] is not semi-positive definite")%string) ;;
  modify (set_A A) ;;
  modify (set_B B) ;;
  modify (set_f f) ;;
  modify (set_Q Q) ;;
  modify (set_R R) ;;
  modify (set_N N) ;;
  modify (set_q q) ;;
  modify (set_r r).

(** The members before the body of a constructor runs: default-constructed
    (empty) matrices and vectors. *)
Definition empty_matrix : MatrixXs := mkMatrix 0 0 [].
Definition uninitialised (nx nu : nat) (drift_free : bool) : Model :=
  mkModel nx nu drift_free empty_matrix empty_matrix empty_matrix empty_matrix
          empty_matrix [] [] [] empty_matrix.

(** [ActionModelLQRTpl(A, B, Q, R, N)]: the state has [A.cols()] entries and
    the control [B.cols()]; the object exists when [set_LQR] returns. *)
Definition ActionModelLQR_drift_free (A B Q R N : MatrixXs)
  : Outcome unit * Model :=
  let m := uninitialised (cols A) (cols B) true in
  let f := Zero_vec (nx m) in
  let q := Zero_vec (nx m) in
  let r := Zero_vec (nu_ m) in
  set_LQR A B Q R N f q r m.

(** [ActionModelLQRTpl(A, B, Q, R, N, f, q, r)] *)
Definition ActionModelLQR_full (A B Q R N : MatrixXs) (f q r : VectorXs)
  : Outcome unit * Model :=
  set_LQR A B Q R N f q r (uninitialised (cols A) (cols B) false).

(** [ActionModelLQRTpl(nx, nu, drift_free)] *)
Definition ActionModelLQR_default (nx nu : nat) (drift_free : bool) : Model :=
  mkModel nx nu drift_free
          (Identity nx nx) (Identity nx nu) (Identity nx nx) (Identity nu nu)
          (Zero nx nu)
          (if drift_free then Zero_vec nx else Ones_vec nx)
          (Ones_vec nx) (Ones_vec nu) empty_matrix.

(** The shapes of the data model: [A] is [nx x nx], [B] is [nx x nu], [Q] is
    [nx x nx], [R] is [nu x nu], [N] is [nx x nu], [f] and [q] have length
    [nx], [r] has length [nu].  Under them every product and sum of [calc]
    and [calcDiff] is between conforming operands. *)
Record shapes (m : Model) : Prop := mkShapes {
  A_rows : rows (A_ m) = nx m;  A_cols : cols (A_ m) = nx m;
  B_rows : rows (B_ m) = nx m;  B_cols : cols (B_ m) = nu_ m;
  Q_rows : rows (Q_ m) = nx m;  Q_cols : cols (Q_ m) = nx m;
  R_rows : rows (R_ m) = nu_ m; R_cols : cols (R_ m) = nu_ m;
  N_rows : rows (N_ m) = nx m;  N_cols : cols (N_ m) = nu_ m;
  f_size : length (f_ m) = nx m;
  q_size : length (q_ m) = nx m;
  r_size : length (r_ m) = nu_ m
}.

(** The matrix [set_LQR] factorises: [[Q, N], [N^T, R]]. *)
Definition cost_hessian (m : Model) (Q R N : MatrixXs) : MatrixXs :=
  comma_init4 (Zero (nx m + nu_ m) (nx m + nu_ m)) Q N (transpose N) R.

(** The checks [set_LQR] makes on its arguments. *)
Definition checked (m : Model) (A B Q R N : MatrixXs) (f q r : VectorXs)
  : bool :=
  (rows A =? nx m) && (rows B =? nx m) &&
  (rows Q =? nx m) && (cols Q =? nx m) &&
  (rows R =? nu_ m) && (cols R =? nu_ m) &&
  (rows N =? nx m) && (cols N =? nu_ m) &&
  (length f =? nx m) && (length q =? nx m) && (length r =? nu_ m) &&
  isApprox (cost_hessian m Q R N) (transpose (cost_hessian m Q R N)) &&
  negb (LLT_info_is_NumericalIssue (cost_hessian m Q R N)).

End WithScalar.
End ActionModelLQR.

(* ------------------------------------------------------------------ *)
(** * [ControlParametrizationModelPolyTwoRK4Tpl<Scalar>]
      (core/controls/poly-two-rk4.hxx) *)

Module ControlParametrizationModelPolyTwoRK4.

(** Modelled from the spec: the enumeration [AssignmentOp] and
    [is_a_AssignmentOp] are declared outside the sources; the accumulation
    modes are overwrite ([setto]), add ([addto]) and subtract ([rmfrom]).
    An enumeration object can hold any integer, hence [Z]. *)
Definition AssignmentOp : Type := Z.
Definition setto : AssignmentOp := 0%Z.
Definition addto : AssignmentOp := 1%Z.
Definition rmfrom : AssignmentOp := 2%Z.
Definition is_a_AssignmentOp (op : AssignmentOp) : bool :=
  (op =? setto)%Z || (op =? addto)%Z || (op =? rmfrom)%Z.

Section WithScalar.
Context {F : ScalarType}.

(** The model: [nw_] and [nu_] of the base class. *)
Record Model : Type := mkModel {
  nw_ : nat;
  nu_ : nat
}.

(** The constructor: [Base(nw, 3 * nw)]. *)
Definition ControlParametrizationModelPolyTwoRK4 (nw : nat) : Model :=
  mkModel nw (3 * nw).

(** The data object: [w], [u], [dw_du] of the base class, the coefficients
    [c[0]], [c[1]], [c[2]] and [tmp_t2]. *)
Record Data : Type := mkData {
  w : VectorXs;
  u : VectorXs;
  dw_du : MatrixXs;
  c_0 : Scalar;
  c_1 : Scalar;
  c_2 : Scalar;
  tmp_t2 : Scalar
}.

Definition set_w (v : VectorXs) (d : Data) : Data :=
  mkData v (u d) (dw_du d) (c_0 d) (c_1 d) (c_2 d) (tmp_t2 d).
Definition set_u (v : VectorXs) (d : Data) : Data :=
  mkData (w d) v (dw_du d) (c_0 d) (c_1 d) (c_2 d) (tmp_t2 d).
Definition set_dw_du (v : MatrixXs) (d : Data) : Data :=
  mkData (w d) (u d) v (c_0 d) (c_1 d) (c_2 d) (tmp_t2 d).
Definition set_c_0 (v : Scalar) (d : Data) : Data :=
  mkData (w d) (u d) (dw_du d) v (c_1 d) (c_2 d) (tmp_t2 d).
Definition set_c_1 (v : Scalar) (d : Data) : Data :=
  mkData (w d) (u d) (dw_du d) (c_0 d) v (c_2 d) (tmp_t2 d).
Definition set_c_2 (v : Scalar) (d : Data) : Data :=
  mkData (w d) (u d) (dw_du d) (c_0 d) (c_1 d) v (tmp_t2 d).
Definition set_tmp_t2 (v : Scalar) (d : Data) : Data :=
  mkData (w d) (u d) (dw_du d) (c_0 d) (c_1 d) (c_2 d) v.

(** Modelled from the spec: the constructor of the data structure is declared
    outside the sources.  [createData()] allocates [w] of length [nw], [u] of
    length [nu], the [nw x nu] Jacobian [dw_du] and the scratch coefficients,
    all zero. *)
Definition createData (m : Model) : Data :=
  mkData (Zero_vec (nw_ m)) (Zero_vec (nu_ m)) (Zero (nw_ m) (nu_ m))
         0%S 0%S 0%S 0%S.

Definition wrong_dimension (name : string) (n : nat) : string :=
  ("Invalid argument: " ++ name ++ " has wrong dimension (it should be "
     ++ to_string n ++ ")")%string.

(** [calc(data, t, u)] *)
Definition calc (m : Model) (t : Scalar) (u : VectorXs) : Stateful Data unit :=
  when (negb (length u =? nu_ m))
       (throw_pretty (wrong_dimension "u" (nu_ m))) ;;
  let p0 := head u (nw_ m) in
  let p1 := segment u (nw_ m) (nw_ m) in
  let p2 := tail u (nw_ m) in
  modify (fun d => set_tmp_t2 (t * t)%S d) ;;
  modify (fun d => set_c_2 (2 * tmp_t2 d - t)%S d) ;;
  modify (fun d => set_c_1 (- (2) * c_2 d + 2 * t)%S d) ;;
  modify (fun d => set_c_0 (c_2 d - 2 * t + 1)%S d) ;;
  modify (fun d => set_w (c_2 d *: p2 +v c_1 d *: p1 +v c_0 d *: p0) d).

(** [calcDiff(data, t, u)]: neither argument has a name in the source. *)
Definition calcDiff (m : Model) (_ : Scalar) (_ : VectorXs)
  : Stateful Data unit :=
  modify (fun d => set_dw_du
    (block_diagonal_fill (dw_du d) (leftCols (dw_du d) (nw_ m)) (c_0 d)) d) ;;
  modify (fun d => set_dw_du
    (block_diagonal_fill (dw_du d) (middleCols (dw_du d) (nw_ m) (nw_ m))
                         (c_1 d)) d) ;;
  modify (fun d => set_dw_du
    (block_diagonal_fill (dw_du d) (rightCols (dw_du d) (nw_ m)) (c_2 d)) d).

(** [params(data, t, w)] *)
Definition params (m : Model) (_ : Scalar) (w : VectorXs)
  : Stateful Data unit :=
  when (negb (length w =? nw_ m))
       (throw_pretty (wrong_dimension "w" (nw_ m))) ;;
  modify (fun d => set_u (head_assign (u d) (nw_ m) w) d) ;;
  modify (fun d => set_u (segment_assign (u d) (nw_ m) (nw_ m) w) d) ;;
  modify (fun d => set_u (tail_assign (u d) (nw_ m) w) d).

(** [convertBounds(w_lb, w_ub, u_lb, u_ub)], a computation over the pair of
    output references [(u_lb, u_ub)]. *)
Definition convertBounds (m : Model) (w_lb w_ub : VectorXs)
  : Stateful (VectorXs * VectorXs) unit :=
  u_lb_size <- gets (fun s => length (fst s)) ;;
  u_ub_size <- gets (fun s => length (snd s)) ;;
  when (negb (u_lb_size =? nu_ m))
       (throw_pretty (wrong_dimension "u_lb" (nu_ m))) ;;
  when (negb (u_ub_size =? nu_ m))
       (throw_pretty (wrong_dimension "u_ub" (nu_ m))) ;;
  when (negb (length w_lb =? nw_ m))
       (throw_pretty (wrong_dimension "w_lb" (nw_ m))) ;;
  when (negb (length w_ub =? nw_ m))
       (throw_pretty (wrong_dimension "w_ub" (nw_ m))) ;;
  modify (fun s => (head_assign (fst s) (nw_ m) w_lb, snd s)) ;;
  modify (fun s => (segment_assign (fst s) (nw_ m) (nw_ m) w_lb, snd s)) ;;
  modify (fun s => (tail_assign (fst s) (nw_ m) w_lb, snd s)) ;;
  modify (fun s => (fst s, head_assign (snd s) (nw_ m) w_ub)) ;;
  modify (fun s => (fst s, segment_assign (snd s) (nw_ m) (nw_ m) w_ub)) ;;
  modify (fun s => (fst s, tail_assign (snd s) (nw_ m) w_ub)).

Definition wrong_dimensions (A out : MatrixXs) : string :=
  ("Invalid argument: " ++ "A and out have wrong dimensions ("
     ++ to_string (rows A) ++ "," ++ to_string (cols A) ++ " and "
     ++ to_string (rows out) ++ "," ++ to_string (cols out) ++ ")")%string.

(** [multiplyByJacobian(data, A, out, op)], a computation over [out].
    [NDEBUG] tells whether the build disables [assert_pretty]. *)
Definition multiplyByJacobian (NDEBUG : bool) (m : Model) (d : Data)
  (A : MatrixXs) (op : AssignmentOp) : Stateful MatrixXs unit :=
  assert_pretty NDEBUG (is_a_AssignmentOp op)
    "op must be one of the AssignmentOp {settop, addto, rmfrom}" ;;
  out_rows <- gets rows ;;
  out_cols <- gets cols ;;
  out0 <- gets (fun out => out) ;;
  when (negb (rows A =? out_rows) || negb (cols A =? nw_ m)
        || negb (out_cols =? nu_ m))
       (throw_pretty (wrong_dimensions A out0)) ;;
  if (op =? setto)%Z then
      modify (fun out => block_assign out (leftCols out (nw_ m))
                                      (mscale (c_0 d) A)) ;;
      modify (fun out => block_assign out (middleCols out (nw_ m) (nw_ m))
                                      (mscale (c_1 d) A)) ;;
      modify (fun out => block_assign out (rightCols out (nw_ m))
                                      (mscale (c_2 d) A))
  else if (op =? addto)%Z then
      modify (fun out => block_add out (leftCols out (nw_ m))
                                   (mscale (c_0 d) A)) ;;
      modify (fun out => block_add out (middleCols out (nw_ m) (nw_ m))
                                   (mscale (c_1 d) A)) ;;
      modify (fun out => block_add out (rightCols out (nw_ m))
                                   (mscale (c_2 d) A))
  else if (op =? rmfrom)%Z then
      modify (fun out => block_sub out (leftCols out (nw_ m))
                                   (mscale (c_0 d) A)) ;;
      modify (fun out => block_sub out (middleCols out (nw_ m) (nw_ m))
                                   (mscale (c_1 d) A)) ;;
      modify (fun out => block_sub out (rightCols out (nw_ m))
                                   (mscale (c_2 d) A))
  else
      throw_pretty "Invalid argument: allowed operators: setto, addto, rmfrom".

(** [multiplyJacobianTransposeBy(data, A, out, op)], a computation over
    [out]. *)
Definition multiplyJacobianTransposeBy (NDEBUG : bool) (m : Model) (d : Data)
  (A : MatrixXs) (op : AssignmentOp) : Stateful MatrixXs unit :=
  assert_pretty NDEBUG (is_a_AssignmentOp op)
    "op must be one of the AssignmentOp {settop, addto, rmfrom}" ;;
  out_rows <- gets rows ;;
  out_cols <- gets cols ;;
  out0 <- gets (fun out => out) ;;
  when (negb (cols A =? out_cols) || negb (rows A =? nw_ m)
        || negb (out_rows =? nu_ m))
       (throw_pretty (wrong_dimensions A out0)) ;;
  if (op =? setto)%Z then
      modify (fun out => block_assign out (topRows out (nw_ m))
                                      (mscale (c_0 d) A)) ;;
      modify (fun out => block_assign out (middleRows out (nw_ m) (nw_ m))
                                      (mscale (c_1 d) A)) ;;
      modify (fun out => block_assign out (bottomRows out (nw_ m))
                                      (mscale (c_2 d) A))
  else if (op =? addto)%Z then
      modify (fun out => block_add out (topRows out (nw_ m))
                                   (mscale (c_0 d) A)) ;;
      modify (fun out => block_add out (middleRows out (nw_ m) (nw_ m))
                                   (mscale (c_1 d) A)) ;;
      modify (fun out => block_add out (bottomRows out (nw_ m))
                                   (mscale (c_2 d) A))
  else if (op =? rmfrom)%Z then
      modify (fun out => block_sub out (topRows out (nw_ m))
                                   (mscale (c_0 d) A)) ;;
      modify (fun out => block_sub out (middleRows out (nw_ m) (nw_ m))
                                   (mscale (c_1 d) A)) ;;
      modify (fun out => block_sub out (bottomRows out (nw_ m))
                                   (mscale (c_2 d) A))
  else
      throw_pretty "Invalid argument: allowed operators: setto, addto, rmfrom".

(** The basis of the specification (section 4.4), written from its words and
    not from the code: [c2 = 2 t^2 - t], [c1 = -2 c2 + 2 t],
    [c0 = c2 - 2 t + 1]. *)
Definition basis_c2 (t : Scalar) : Scalar := (2 * (t * t) - t)%S.
Definition basis_c1 (t : Scalar) : Scalar := (- (2) * basis_c2 t + 2 * t)%S.
Definition basis_c0 (t : Scalar) : Scalar := (basis_c2 t - 2 * t + 1)%S.

(** Three matrices side by side, [[M0, M1, M2]]. *)
Definition block_row (M0 M1 M2 : MatrixXs) : MatrixXs :=
  mk_matrix (rows M0) (cols M0 + cols M1 + cols M2)
    (fun i j =>
       if j <? cols M0 then get M0 i j
       else if j <? cols M0 + cols M1 then get M1 i (j - cols M0)
       else get M2 i (j - (cols M0 + cols M1))).

(** The Jacobian of the specification at time [t]: the block row
    [[c0(t) I, c1(t) I, c2(t) I]] with identity blocks of size [nw]. *)
Definition Jacobian (m : Model) (t : Scalar) : MatrixXs :=
  block_row (mscale (basis_c0 t) (Identity (nw_ m) (nw_ m)))
            (mscale (basis_c1 t) (Identity (nw_ m) (nw_ m)))
            (mscale (basis_c2 t) (Identity (nw_ m) (nw_ m))).

(** What [createData] establishes for the buffers and every member function
    keeps: [u] has [nu] entries, [dw_du] is [nw x nu], and [dw_du] is zero
    off the three diagonals that [calcDiff] writes. *)
Record buffers (m : Model) (d : Data) : Prop := mkBuffers {
  u_size : length (u d) = nu_ m;
  dw_du_rows : rows (dw_du d) = nw_ m;
  dw_du_cols : cols (dw_du d) = nu_ m;
  dw_du_zeros : forall i j, i < nw_ m -> j < nu_ m ->
    j <> i -> j <> nw_ m + i -> j <> 2 * nw_ m + i ->
    get (dw_du d) i j = 0%S
}.

(** The write of each accumulation mode, and the value of [out] after the
    three statements of a [case] of [multiplyByJacobian] and of
    [multiplyJacobianTransposeBy]. *)
Definition write_of (op : AssignmentOp) : Scalar -> Scalar -> Scalar :=
  if (op =? setto)%Z then fun _ new => new
  else if (op =? addto)%Z then fun old new => (old + new)%S
  else fun old new => (old - new)%S.

Definition column_thirds (upd : Scalar -> Scalar -> Scalar) (m : Model)
  (d : Data) (A out : MatrixXs) : MatrixXs :=
  let out1 := block_update upd out (leftCols out (nw_ m)) (mscale (c_0 d) A) in
  let out2 := block_update upd out1 (middleCols out1 (nw_ m) (nw_ m))
                           (mscale (c_1 d) A) in
  block_update upd out2 (rightCols out2 (nw_ m)) (mscale (c_2 d) A).

Definition row_thirds (upd : Scalar -> Scalar -> Scalar) (m : Model)
  (d : Data) (A out : MatrixXs) : MatrixXs :=
  let out1 := block_update upd out (topRows out (nw_ m)) (mscale (c_0 d) A) in
  let out2 := block_update upd out1 (middleRows out1 (nw_ m) (nw_ m))
                           (mscale (c_1 d) A) in
  block_update upd out2 (bottomRows out2 (nw_ m)) (mscale (c_2 d) A).

(** The value of [dw_du] after the three statements of [calcDiff]. *)
Definition diagonal_thirds (m : Model) (d : Data) : MatrixXs :=
  let J1 := block_diagonal_fill (dw_du d) (leftCols (dw_du d) (nw_ m))
                                (c_0 d) in
  let J2 := block_diagonal_fill J1 (middleCols J1 (nw_ m) (nw_ m)) (c_1 d) in
  block_diagonal_fill J2 (rightCols J2 (nw_ m)) (c_2 d).

(** A call of one of the three member functions that write the data, and a
    sequence of such calls on one data object; a call that throws leaves the
    object as it is at the throw. *)
Inductive Call : Type :=
| Call_calc (t : Scalar) (u : VectorXs)
| Call_calcDiff (t : Scalar) (u : VectorXs)
| Call_params (t : Scalar) (w : VectorXs).

Definition run_call (m : Model) (d : Data) (c : Call) : Data :=
  match c with
  | Call_calc t u => snd (calc m t u d)
  | Call_calcDiff t u => snd (calcDiff m t u d)
  | Call_params t w => snd (params m t w d)
  end.

Definition run_calls (m : Model) (cs : list Call) (d : Data) : Data :=
  fold_left (run_call m) cs d.

End WithScalar.
End ControlParametrizationModelPolyTwoRK4.

(* ------------------------------------------------------------------ *)
(** * The rational instance of the scalar type

    Exact rational arithmetic, used to run the code on concrete inputs. *)

Module RationalScalar.
Import QArith Qcanon.

Definition half : Qc := Q2Qc (1 # 2).

#[export] Instance Qc_ScalarType : ScalarType :=
  {| Scalar := Qc;
     szero := Q2Qc 0;
     sone := Q2Qc 1;
     sadd := Qcplus;
     smul := Qcmult;
     ssub := Qcminus;
     sopp := Qcopp;
     shalf := half |}.

#[export] Instance Qc_ExactArithmetic : ExactArithmetic Qc_ScalarType :=
  {| Scalar_ring := Qcrt;
     shalf_double := Qc_is_canon (Qcplus half half) (Q2Qc 1) eq_refl |}.

Definition Qcle_bool (x y : Qc) : bool :=
  match Qccompare x y with
  | Gt => false
  | _ => true
  end.

Definition Qcmin (x y : Qc) : Qc := if Qcle_bool x y then x else y.

(** An instance of the two Eigen routines for the rationals, to run
    [set_LQR] on concrete matrices.  The lemmas on [set_LQR] are proved for
    every instance. *)

(** [M.squaredNorm()] *)
Definition squaredNorm (M : MatrixXs) : Qc :=
  sum_n (rows M) (fun i => sum_n (cols M) (fun j => get M i j * get M i j)%S).

(** [NumTraits<double>::dummy_precision()] *)
Definition dummy_precision : Qc := Q2Qc (1 # 1000000000000).

(** Eigen's fuzzy comparison, in exact arithmetic:
    [|a - b|^2 <= prec^2 * min(|a|^2, |b|^2)]. *)
Definition isApprox_exact (a b : MatrixXs) : bool :=
  (rows a =? rows b)%nat && (cols a =? cols b)%nat &&
  Qcle_bool
    (squaredNorm
       (mk_matrix (rows a) (cols a) (fun i j => get a i j - get b i j)%S))
    (dummy_precision * dummy_precision * Qcmin (squaredNorm a) (squaredNorm b)).

(** The Cholesky factorisation reads the lower triangle, and reports a
    numerical issue at the first pivot that is not positive.  Its pivots are
    the squares of the diagonal of [L]; in exact arithmetic they are the
    leading coefficients of the successive Schur complements, computed here
    without square roots. *)
Definition lower (M : MatrixXs) (i j : nat) : Qc :=
  get M (Nat.max i j) (Nat.min i j).

Fixpoint nonpositive_pivot (n : nat) (M : MatrixXs) : bool :=
  match n with
  | O => false
  | S k =>
      let p := lower M 0 0 in
      if Qcle_bool p (Q2Qc 0) then true
      else nonpositive_pivot k
             (mk_matrix k k
                (fun i j => lower M (S i) (S j)
                            - lower M (S i) 0 * lower M (S j) 0 / p))
  end.

#[export] Instance Qc_Numerics : Numerics :=
  {| isApprox := isApprox_exact;
     LLT_info_is_NumericalIssue := fun H => nonpositive_pivot (rows H) H |}.

(** Literals: the rational [n/1] and matrices given by their rows. *)
Definition of_Z (n : Z) : Qc := Q2Qc (inject_Z n).
Definition vector_of (l : list Z) : VectorXs := List.map of_Z l.
Definition matrix_of (r c : nat) (l : list (list Z)) : MatrixXs :=
  mkMatrix r c (List.map (List.map of_Z) l).

(** The model of the specification's example: [nx = 2], [nu = 1], [A = I],
    [B = [[0],[1]]], [Q = I], [R = [[1]]], [N = 0], [f = q = r = 0]. *)
Definition example_model : ActionModelLQR.Model :=
  ActionModelLQR.mkModel 2 1 true
    (Identity 2 2) (mkMatrix 2 1 [[0]; [1]]%S) (Identity 2 2)
    (mkMatrix 1 1 [[1]]%S) (Zero 2 1) [0; 0]%S [0; 0]%S [0]%S (Identity 3 3).

Definition blank_data : ActionModelLQR.Data :=
  ActionModelLQR.mkData [] 0%S ActionModelLQR.empty_matrix
    ActionModelLQR.empty_matrix [] [] ActionModelLQR.empty_matrix
    ActionModelLQR.empty_matrix ActionModelLQR.empty_matrix [] [].

(** The parametrization with [nw = 1] and fresh data, after [calc] at
    [t = 2] on the parameter vector [(1, 2, 3)]: the stored coefficients are
    [(3, -8, 6)]. *)
Definition rk4_model : ControlParametrizationModelPolyTwoRK4.Model :=
  ControlParametrizationModelPolyTwoRK4.ControlParametrizationModelPolyTwoRK4 1.

Definition rk4_fresh : ControlParametrizationModelPolyTwoRK4.Data :=
  ControlParametrizationModelPolyTwoRK4.createData rk4_model.

Definition rk4_at_two : ControlParametrizationModelPolyTwoRK4.Data :=
  snd (ControlParametrizationModelPolyTwoRK4.calc rk4_model (of_Z 2)
         (vector_of [1; 2; 3]%Z) rk4_fresh).

End RationalScalar.

(* ------------------------------------------------------------------ *)
(** * The scalar type [double]

    IEEE 754 binary64 with round to nearest, ties to even: the primitive
    floating-point numbers.  There is no instance of [ExactArithmetic] for
    it. *)

Module Binary64.
Import PrimFloat.

#[export] Instance double_ScalarType : ScalarType :=
  {| Scalar := float;
     szero := 0%float;
     sone := 1%float;
     sadd := add;
     smul := mul;
     ssub := sub;
     sopp := opp;
     shalf := 0.5%float |}.

(** The [double] nearest to the decimal fraction [n / d], for integers [n]
    and [d] that are themselves of type [double]: what the literal
    [0.006] is for [n = 6] and [d = 1000]. *)
Definition decimal (n d : float) : float := div n d.

(** The parametrization with [nw = 1] on fresh data. *)
Definition rk4_model : ControlParametrizationModelPolyTwoRK4.Model :=
  ControlParametrizationModelPolyTwoRK4.ControlParametrizationModelPolyTwoRK4 1.

Definition rk4_fresh : ControlParametrizationModelPolyTwoRK4.Data :=
  ControlParametrizationModelPolyTwoRK4.createData rk4_model.

End Binary64.

(* ------------------------------------------------------------------ *)
(** * Tactics *)

(** Runs a computation of the monad. *)
Ltac run_stateful :=
  unfold bind, when, assert_pretty, modify, gets, ret, throw_pretty; cbn.

(** Case analysis on every test of the goal. *)
Ltac split_conditions :=
  repeat match goal with
         | |- context [if ?b then _ else _] => destruct b eqn:?
         end.

(** Case analysis on the comparisons of indices. *)
Ltac index_cases :=
  repeat (match goal with
          | |- context [?a <? ?b] => destruct (Nat.ltb_spec a b)
          | |- context [?a <=? ?b] => destruct (Nat.leb_spec a b)
          | |- context [?a =? ?b] => destruct (Nat.eqb_spec a b)
          end; cbn [andb orb negb]).

(* ================================================================== *)
(** * Properties *)

Unset Implicit Arguments.

(** ** Coefficient-wise reasoning on vectors and matrices *)

Section EigenFacts.
Context {F : ScalarType}.

Lemma length_mk_vector (n : nat) (f : nat -> Scalar) :
  length (mk_vector n f) = n.
Proof. unfold mk_vector. now rewrite length_map, length_seq. Qed.

Lemma vget_mk_vector (n : nat) (f : nat -> Scalar) (i : nat) :
  i < n -> vget (mk_vector n f) i = f i.
Proof.
  intros Hi. unfold vget, mk_vector.
  rewrite (nth_indep _ 0%S (f 0)) by now rewrite length_map, length_seq.
  rewrite map_nth, seq_nth by assumption. reflexivity.
Qed.

Lemma mk_vector_ext (n : nat) (f g : nat -> Scalar) :
  (forall i, i < n -> f i = g i) -> mk_vector n f = mk_vector n g.
Proof.
  intros H. unfold mk_vector. apply map_ext_in.
  intros i Hi. apply in_seq in Hi. apply H. lia.
Qed.

Lemma vector_ext (a b : VectorXs) :
  length a = length b ->
  (forall i, i < length a -> vget a i = vget b i) -> a = b.
Proof. intros Hl H. apply (nth_ext a b 0%S 0%S Hl H). Qed.

Lemma mk_vector_vget (v : VectorXs) : mk_vector (length v) (vget v) = v.
Proof.
  apply vector_ext.
  - apply length_mk_vector.
  - intros i Hi. rewrite length_mk_vector in Hi. now apply vget_mk_vector.
Qed.

Lemma get_mk_matrix (r c : nat) (f : nat -> nat -> Scalar) (i j : nat) :
  i < r -> j < c -> get (mk_matrix r c f) i j = f i j.
Proof.
  intros Hi Hj. unfold get, mk_matrix. cbn [coeffs].
  rewrite (nth_indep _ [] (map (f 0) (seq 0 c)))
    by now rewrite length_map, length_seq.
  rewrite (map_nth (fun i => map (f i) (seq 0 c))), seq_nth by assumption.
  apply (vget_mk_vector c (f (0 + i)) j Hj).
Qed.

Lemma mk_matrix_ext (r c : nat) (f g : nat -> nat -> Scalar) :
  (forall i j, i < r -> j < c -> f i j = g i j) ->
  mk_matrix r c f = mk_matrix r c g.
Proof.
  intros H. unfold mk_matrix. f_equal. apply map_ext_in.
  intros i Hi. apply in_seq in Hi. apply map_ext_in.
  intros j Hj. apply in_seq in Hj. apply H; lia.
Qed.

Lemma wf_mk_matrix (r c : nat) (f : nat -> nat -> Scalar) :
  wf_matrix (mk_matrix r c f).
Proof.
  split; cbn.
  - now rewrite length_map, length_seq.
  - apply Forall_forall. intros row Hrow. apply in_map_iff in Hrow.
    destruct Hrow as [i [<- _]]. now rewrite length_map, length_seq.
Qed.

Lemma mk_matrix_get (M : MatrixXs) :
  wf_matrix M -> mk_matrix (rows M) (cols M) (get M) = M.
Proof.
  destruct M as [r c l]. intros [Hr Hc]. cbn in *. unfold mk_matrix. f_equal.
  apply (nth_ext _ _ [] []).
  - now rewrite length_map, length_seq.
  - intros i Hi. rewrite length_map, length_seq in Hi.
    rewrite (nth_indep _ [] (map (get (mkMatrix r c l) 0) (seq 0 c)))
      by now rewrite length_map, length_seq.
    rewrite (map_nth (fun i => map (get (mkMatrix r c l) i) (seq 0 c))).
    rewrite seq_nth by assumption. cbn.
    assert (Hrow : length (nth i l []) = c).
    { rewrite Forall_forall in Hc. apply Hc. apply nth_In. lia. }
    rewrite <- Hrow. apply (mk_vector_vget (nth i l [])).
Qed.

Lemma sum_n_ext (n : nat) (f g : nat -> Scalar) :
  (forall i, i < n -> f i = g i) -> sum_n n f = sum_n n g.
Proof.
  induction n as [|n IH]; intros H; cbn; [reflexivity|].
  rewrite IH by (intros; apply H; lia). now rewrite H by lia.
Qed.

(** The coefficients of the operations, between conforming operands. *)

Lemma vget_vadd (a b : VectorXs) (i : nat) :
  i < length a -> vget (a +v b) i = (vget a i + vget b i)%S.
Proof. intros. unfold vadd. now rewrite vget_mk_vector. Qed.

Lemma vget_vscale (c : Scalar) (v : VectorXs) (i : nat) :
  i < length v -> vget (c *: v) i = (c * vget v i)%S.
Proof. intros. unfold vscale. now rewrite vget_mk_vector. Qed.

Lemma vget_mat_vec (M : MatrixXs) (v : VectorXs) (i : nat) :
  i < rows M ->
  vget (M *v v) i = sum_n (cols M) (fun j => get M i j * vget v j)%S.
Proof. intros. unfold mat_vec. now rewrite vget_mk_vector. Qed.

Lemma get_transpose (M : MatrixXs) (i j : nat) :
  i < cols M -> j < rows M -> get (transpose M) i j = get M j i.
Proof. intros. unfold transpose. now rewrite get_mk_matrix. Qed.

Lemma vget_transpose_mat_vec (M : MatrixXs) (v : VectorXs) (j : nat) :
  j < cols M ->
  vget (transpose M *v v) j = sum_n (rows M) (fun i => get M i j * vget v i)%S.
Proof.
  intros Hj. rewrite vget_mat_vec by exact Hj. cbn [transpose mk_matrix cols].
  apply sum_n_ext. intros i Hi. now rewrite get_transpose.
Qed.

Lemma transpose_involutive (M : MatrixXs) :
  wf_matrix M -> transpose (transpose M) = M.
Proof.
  intros H. rewrite <- (mk_matrix_get M H) at 2. unfold transpose at 1.
  cbn [transpose mk_matrix rows cols]. apply mk_matrix_ext.
  intros i j Hi Hj. now apply get_transpose.
Qed.

End EigenFacts.

(** ** The LQR action model *)

Section LQRProperties.
Context {F : ScalarType} {X : ExactArithmetic F} {E : Numerics}.
Import ActionModelLQR.

Add Ring ScalarRing : (@Scalar_ring F X).

Lemma calc_returns (m : Model) (d : Data) (x u : VectorXs) :
  length x = nx m -> length u = nu_ m ->
  calc m x u d =
  (Returned tt,
   mkData (A_ m *v x +v B_ m *v u +v f_ m)
          (shalf * dot x (Q_ m *v x) + shalf * dot u (R_ m *v u)
           + dot x (N_ m *v u) + dot (q_ m) x + dot (r_ m) u)%S
          (Fx d) (Fu d) (Lx d) (Lu d) (Lxx d) (Luu d) (Lxu d)
          (R_ m *v u) (N_ m *v u)).
Proof.
  intros Hx Hu. unfold calc. rewrite Hx, Hu, !Nat.eqb_refl.
  run_stateful. reflexivity.
Qed.


Lemma calc_terminal_returns (m : Model) (d : Data) (x : VectorXs) :
  length x = nx m ->
  calc_terminal m x d =
  (Returned tt,
   mkData x (shalf * dot x (Q_ m *v x) + dot (q_ m) x)%S
          (Fx d) (Fu d) (Lx d) (Lu d) (Lxx d) (Luu d) (Lxu d)
          (R_u_tmp d) (Q_ m *v x)).
Proof.
  intros Hx. unfold calc_terminal. rewrite Hx, Nat.eqb_refl.
  run_stateful. reflexivity.
Qed.

Lemma calc_terminal_throws (m : Model) (d : Data) (x : VectorXs) :
  length x <> nx m ->
  calc_terminal m x d =
  (Thrown (mkException (wrong_dimension "x" (nx m))), d).
Proof.
  intros Hx. unfold calc_terminal. apply Nat.eqb_neq in Hx. rewrite Hx.
  run_stateful. reflexivity.
Qed.

(** C7.  The terminal [calc(data, x)]: when [x] has [nx] entries it returns
    after writing [xnext = x] and [cost = 1/2 x.(Q x) + q.x], a cost with no
    term in the control; when [x] has another length it throws the
    library's exception and [data] is as before. *)
Theorem calc_terminal_state_cost (m : Model) (d : Data) (x : VectorXs) :
  (length x = nx m ->
   exists d' : Data,
     calc_terminal m x d = (Returned tt, d') /\
     xnext d' = x /\
     cost d' = (shalf * dot x (Q_ m *v x) + dot (q_ m) x)%S) /\
  (length x <> nx m ->
   InvalidArgument (calc_terminal m x d) /\ snd (calc_terminal m x d) = d).
Proof.
  split; intros Hx.
  - eexists. split; [apply calc_terminal_returns; assumption|].
    split; reflexivity.
  - rewrite calc_terminal_throws by assumption. split; [|reflexivity].
    eexists. reflexivity.
Qed.

Lemma calcDiff_returns (m : Model) (d : Data) (x u : VectorXs) :
  length x = nx m -> length u = nu_ m ->
  calcDiff m x u d =
  (Returned tt,
   mkData (xnext d) (cost d) (A_ m) (B_ m)
          (q_ m +v Q_ m *v x +v N_ m *v u)
          (r_ m +v transpose (N_ m) *v x +v R_ m *v u)
          (Q_ m) (R_ m) (N_ m) (R_u_tmp d) (Q_x_tmp d)).
Proof.
  intros Hx Hu. unfold calcDiff. rewrite Hx, Hu, !Nat.eqb_refl.
  run_stateful. reflexivity.
Qed.

(** C2.  With conforming shapes, [calcDiff(data, x, u)] returns after writing
    [Fx = A], [Fu = B], [Lxx = Q], [Luu = R], [Lxu = N],
    [Lx = q + Q x + N u] and [Lu = r + N^T x + R u]: the very matrices of the
    model and the gradient coefficient by coefficient,
    [Lx_i = q_i + sum_j Q_ij x_j + sum_j N_ij u_j] and
    [Lu_j = r_j + sum_i N_ij x_i + sum_k R_jk u_k]. *)
Theorem calcDiff_exact_derivatives (m : Model) (d : Data) (x u : VectorXs) :
  shapes m -> length x = nx m -> length u = nu_ m ->
  exists d' : Data,
    calcDiff m x u d = (Returned tt, d') /\
    Fx d' = A_ m /\ Fu d' = B_ m /\
    Lxx d' = Q_ m /\ Luu d' = R_ m /\ Lxu d' = N_ m /\
    Lx d' = q_ m +v Q_ m *v x +v N_ m *v u /\
    Lu d' = r_ m +v transpose (N_ m) *v x +v R_ m *v u /\
    length (Lx d') = nx m /\ length (Lu d') = nu_ m /\
    (forall i, i < nx m ->
       vget (Lx d') i =
       (vget (q_ m) i + sum_n (nx m) (fun j => get (Q_ m) i j * vget x j)
        + sum_n (nu_ m) (fun j => get (N_ m) i j * vget u j))%S) /\
    (forall j, j < nu_ m ->
       vget (Lu d') j =
       (vget (r_ m) j + sum_n (nx m) (fun i => get (N_ m) i j * vget x i)
        + sum_n (nu_ m) (fun k => get (R_ m) j k * vget u k))%S).
Proof.
  intros Hm Hx Hu. destruct Hm.
  eexists. split; [apply calcDiff_returns; assumption|].
  cbn [Fx Fu Lx Lu Lxx Luu Lxu].
  repeat (split; [reflexivity|]).
  assert (HLx : length (q_ m +v Q_ m *v x) = nx m)
    by (unfold vadd; now rewrite length_mk_vector).
  assert (HLu : length (r_ m +v transpose (N_ m) *v x) = nu_ m)
    by (unfold vadd; now rewrite length_mk_vector).
  split; [unfold vadd at 1; now rewrite length_mk_vector|].
  split; [unfold vadd at 1; now rewrite length_mk_vector|].
  split.
  - intros i Hi. rewrite !vget_vadd, !vget_mat_vec by lia.
    now rewrite Q_cols0, N_cols0.
  - intros j Hj. rewrite !vget_vadd by lia.
    rewrite vget_transpose_mat_vec by lia.
    rewrite vget_mat_vec by lia. now rewrite N_rows0, R_cols0.
Qed.

(** *** The bulk setter *)

(** A call that passes the checks replaces the eight members. *)
Lemma set_LQR_returns (m : Model) (A B Q R N : MatrixXs) (f q r : VectorXs) :
  checked m A B Q R N f q r = true ->
  set_LQR A B Q R N f q r m =
  (Returned tt,
   mkModel (nx m) (nu_ m) (drift_free_ m) A B Q R N f q r
           (cost_hessian m Q R N)).
Proof.
  unfold checked. rewrite !andb_true_iff, negb_true_iff.
  intros [[[[[[[[[[[[HA HB] HQr] HQc] HRr] HRc] HNr] HNc] Hf] Hq] Hr] Hs] Hl].
  unfold set_LQR. run_stateful. fold (cost_hessian m Q R N).
  rewrite HA, HB, HQr, HQc, HRr, HRc, HNr, HNc, Hf, Hq, Hr, Hs, Hl.
  reflexivity.
Qed.

(** The checks read [A] and [B] through [rows()] only: their numbers of
    columns play no part in the outcome. *)
Lemma checked_ignores_columns (m : Model) (A A' B B' Q R N : MatrixXs)
  (f q r : VectorXs) :
  rows A' = rows A -> rows B' = rows B ->
  checked m A' B' Q R N f q r = checked m A B Q R N f q r.
Proof. intros HA HB. unfold checked. now rewrite HA, HB. Qed.

(** A call that fails one of the checks throws. *)
Lemma set_LQR_throws (m : Model) (A B Q R N : MatrixXs) (f q r : VectorXs) :
  checked m A B Q R N f q r = false ->
  InvalidArgument (set_LQR A B Q R N f q r m).
Proof.
  unfold checked, InvalidArgument, set_LQR. run_stateful.
  fold (cost_hessian m Q R N). intros Hc.
  destruct (rows A =? nx m); cbn; [|eexists; reflexivity].
  destruct (rows B =? nx m); cbn; [|eexists; reflexivity].
  destruct (rows Q =? nx m); cbn; [|eexists; reflexivity].
  destruct (cols Q =? nx m); cbn; [|eexists; reflexivity].
  destruct (rows R =? nu_ m); cbn; [|eexists; reflexivity].
  destruct (cols R =? nu_ m); cbn; [|eexists; reflexivity].
  destruct (rows N =? nx m); cbn; [|eexists; reflexivity].
  destruct (cols N =? nu_ m); cbn; [|eexists; reflexivity].
  destruct (length f =? nx m); cbn; [|eexists; reflexivity].
  destruct (length q =? nx m); cbn; [|eexists; reflexivity].
  destruct (length r =? nu_ m); cbn; [|eexists; reflexivity].
  cbn in Hc.
  destruct (isApprox _ _); cbn in *; [|eexists; reflexivity].
  destruct (LLT_info_is_NumericalIssue _); cbn in *; [|discriminate].
  eexists; reflexivity.
Qed.

(** A call that throws leaves every member that has an accessor, and both
    dimensions, as they were: only the scratch matrix [H_] can differ. *)
Lemma set_LQR_throw_keeps_accessors
  (m m' : Model) (A B Q R N : MatrixXs) (f q r : VectorXs) (e : Exception) :
  set_LQR A B Q R N f q r m = (Thrown e, m') ->
  nx m' = nx m /\ nu_ m' = nu_ m /\
  get_A m' = get_A m /\ get_B m' = get_B m /\ get_f m' = get_f m /\
  get_Q m' = get_Q m /\ get_R m' = get_R m /\ get_N m' = get_N m /\
  get_q m' = get_q m /\ get_r m' = get_r m.
Proof.
  unfold set_LQR. run_stateful. split_conditions; cbn;
    intros H; inversion H; subst; cbn; repeat split; reflexivity.
Qed.

(** A model built by a constructor that calls [set_LQR] has the shapes of
    the data model: the state dimension is taken from [A.cols()] and the
    control dimension from [B.cols()]. *)
Lemma constructor_shapes (A B Q R N : MatrixXs) (f q r : VectorXs)
  (m : Model) :
  ActionModelLQR_full A B Q R N f q r = (Returned tt, m) -> shapes m.
Proof.
  unfold ActionModelLQR_full. set (m0 := uninitialised (cols A) (cols B) false).
  destruct (checked m0 A B Q R N f q r) eqn:Hc.
  - rewrite (set_LQR_returns _ _ _ _ _ _ _ _ _ Hc). intros H. inversion H.
    subst m. clear H. unfold checked in Hc.
    rewrite !andb_true_iff, !Nat.eqb_eq in Hc.
    destruct Hc as [[[[[[[[[[[[HA HB] HQr] HQc] HRr] HRc] HNr] HNc] Hf] Hq] Hr] _] _].
    constructor; cbn in *; assumption || reflexivity.
  - intros H. destruct (set_LQR_throws _ _ _ _ _ _ _ _ _ Hc) as [e He].
    rewrite H in He. discriminate.
Qed.

End LQRProperties.

(** ** The RK4 quadratic control parametrization *)

Section RK4Properties.
Context {F : ScalarType} {X : ExactArithmetic F}.
Import ControlParametrizationModelPolyTwoRK4.

Add Ring ScalarRingRK4 : (@Scalar_ring F X).

Lemma length_segment_assign (v : VectorXs) (s n : nat) (src : VectorXs) :
  length (segment_assign v s n src) = length v.
Proof. apply length_mk_vector. Qed.

Lemma vget_segment_assign (v : VectorXs) (s n : nat) (src : VectorXs) (i : nat) :
  i < length v ->
  vget (segment_assign v s n src) i =
  if (s <=? i) && (i <? s + n) then vget src (i - s) else vget v i.
Proof. intros. unfold segment_assign. now rewrite vget_mk_vector. Qed.

Lemma segment_eq (v : VectorXs) (s n : nat) (src : VectorXs) :
  length src = n ->
  (forall i, i < n -> vget v (s + i) = vget src i) ->
  segment v s n = src.
Proof.
  intros Hl H. apply vector_ext.
  - unfold segment. now rewrite length_mk_vector.
  - unfold segment. rewrite length_mk_vector. intros i Hi.
    rewrite vget_mk_vector by assumption. now apply H.
Qed.

(** [calc] with a parameter vector of the right length: the coefficients it
    stores are those of the specification's basis at its own [t]. *)
Lemma rk4_calc_returns (m : Model) (d : Data) (t : Scalar) (uv : VectorXs) :
  length uv = nu_ m ->
  calc m t uv d =
  (Returned tt,
   mkData (basis_c2 t *: tail uv (nw_ m)
           +v basis_c1 t *: segment uv (nw_ m) (nw_ m)
           +v basis_c0 t *: head uv (nw_ m))
          (u d) (dw_du d) (basis_c0 t) (basis_c1 t) (basis_c2 t) (t * t)%S).
Proof.
  intros Hu. unfold calc. rewrite Hu, Nat.eqb_refl. run_stateful. reflexivity.
Qed.

Lemma rk4_calc_throws (m : Model) (d : Data) (t : Scalar) (uv : VectorXs) :
  length uv <> nu_ m ->
  calc m t uv d = (Thrown (mkException (wrong_dimension "u" (nu_ m))), d).
Proof.
  intros Hu. unfold calc. apply Nat.eqb_neq in Hu. rewrite Hu.
  run_stateful. reflexivity.
Qed.

(** In exact arithmetic the basis sums to one. *)
Lemma basis_sum (t : Scalar) : (basis_c0 t + basis_c1 t + basis_c2 t = 1)%S.
Proof. unfold basis_c0, basis_c1, basis_c2. ring. Qed.

(** [params] with a control of the right length. *)
Lemma params_state (m : Model) (d : Data) (t : Scalar) (wv : VectorXs) :
  length wv = nw_ m ->
  params m t wv d =
  (Returned tt,
   set_u (tail_assign
            (segment_assign (head_assign (u d) (nw_ m) wv) (nw_ m) (nw_ m) wv)
            (nw_ m) wv) d).
Proof. intros Hw. unfold params. rewrite Hw, Nat.eqb_refl. reflexivity. Qed.

(** On buffers of the right size, the three thirds of [u] hold the control
    afterwards. *)
Lemma params_returns (nw : nat) (d : Data) (t : Scalar) (wv : VectorXs) :
  let m := ControlParametrizationModelPolyTwoRK4 nw in
  length (u d) = nu_ m -> length wv = nw_ m ->
  exists d1 : Data,
    params m t wv d = (Returned tt, d1) /\
    length (u d1) = nu_ m /\
    head (u d1) nw = wv /\ segment (u d1) nw nw = wv /\ tail (u d1) nw = wv /\
    (w d1, dw_du d1, c_0 d1, c_1 d1, c_2 d1)
      = (w d, dw_du d, c_0 d, c_1 d, c_2 d).
Proof.
  intros m Hu Hw. eexists. split; [apply params_state; exact Hw|].
  cbn [u w dw_du c_0 c_1 c_2 set_u nw_ nu_ m
       ControlParametrizationModelPolyTwoRK4] in *.
  set (u1 := tail_assign _ _ _).
  assert (L : length u1 = 3 * nw).
  { unfold u1, tail_assign, head_assign. now rewrite !length_segment_assign. }
  assert (E : forall i, i < 3 * nw ->
    vget u1 i =
    vget wv (if i <? nw then i else if i <? 2 * nw then i - nw
             else i - 2 * nw)).
  { intros i Hi. unfold u1, tail_assign, head_assign.
    rewrite !length_segment_assign, Hu.
    rewrite !vget_segment_assign by (rewrite ?length_segment_assign; lia).
    index_cases; try lia; f_equal; lia. }
  split; [exact L|].
  repeat split.
  - apply segment_eq; [assumption|]. intros i Hi. rewrite E by lia.
    index_cases; try lia; f_equal; lia.
  - apply segment_eq; [assumption|]. intros i Hi. rewrite E by lia.
    index_cases; try lia; f_equal; lia.
  - unfold tail. rewrite L.
    apply segment_eq; [assumption|]. intros i Hi. rewrite E by lia.
    index_cases; try lia; f_equal; lia.
Qed.

(** In exact arithmetic the combination [calc] forms from three copies of
    [w] is [w]: it is [(c0 + c1 + c2) w] and the coefficients sum to one. *)
Lemma round_trip_in_exact_arithmetic (nw : nat) (d : Data) (t : Scalar)
  (wv : VectorXs) :
  let m := ControlParametrizationModelPolyTwoRK4 nw in
  length (u d) = nu_ m -> length wv = nw_ m ->
  exists d1 d2 : Data,
    params m t wv d = (Returned tt, d1) /\
    calc m t (u d1) d1 = (Returned tt, d2) /\
    w d2 = wv.
Proof.
  intros m Hu Hw.
  destruct (params_returns nw d t wv Hu Hw) as (d1 & Hp & Hu1 & H0 & H1 & H2 & _).
  exists d1. eexists. split; [exact Hp|].
  split; [apply rk4_calc_returns; exact Hu1|].
  cbn [w nw_ m ControlParametrizationModelPolyTwoRK4]. rewrite H0, H1, H2.
  cbn in Hw. apply vector_ext.
  - unfold vadd, vscale. now rewrite !length_mk_vector.
  - unfold vadd at 1. rewrite length_mk_vector. unfold vadd at 1.
    rewrite length_mk_vector. unfold vscale at 1. rewrite length_mk_vector.
    intros i Hi. unfold vadd, vscale.
    rewrite !vget_mk_vector by (rewrite ?length_mk_vector; lia).
    unfold basis_c0, basis_c1, basis_c2. ring.
Qed.

(** *** The Jacobian and the products by it *)

Lemma matrix_ext (M N : MatrixXs) :
  wf_matrix M -> wf_matrix N -> rows M = rows N -> cols M = cols N ->
  (forall i j, i < rows M -> j < cols M -> get M i j = get N i j) ->
  M = N.
Proof.
  intros HM HN Hr Hc H.
  rewrite <- (mk_matrix_get M HM), <- (mk_matrix_get N HN), <- Hr, <- Hc.
  now apply mk_matrix_ext.
Qed.

Lemma get_mscale (c : Scalar) (A : MatrixXs) (i j : nat) :
  i < rows A -> j < cols A -> get (mscale c A) i j = (c * get A i j)%S.
Proof. intros. unfold mscale. now rewrite get_mk_matrix. Qed.

Lemma get_Identity (n i j : nat) :
  i < n -> j < n -> get (Identity n n) i j = if i =? j then 1%S else 0%S.
Proof. intros. unfold Identity. now rewrite get_mk_matrix. Qed.

Lemma get_block_update (upd : Scalar -> Scalar -> Scalar) (M : MatrixXs)
  (b : Block) (src : MatrixXs) (i j : nat) :
  i < rows M -> j < cols M ->
  get (block_update upd M b src) i j =
  if in_block b i j
  then upd (get M i j) (get src (i - startRow b) (j - startCol b))
  else get M i j.
Proof. intros. unfold block_update. now rewrite get_mk_matrix. Qed.

Lemma get_block_diagonal_fill (M : MatrixXs) (b : Block) (c : Scalar)
  (i j : nat) :
  i < rows M -> j < cols M ->
  get (block_diagonal_fill M b c) i j =
  if in_block b i j && (i - startRow b =? j - startCol b)
  then c else get M i j.
Proof. intros. unfold block_diagonal_fill. now rewrite get_mk_matrix. Qed.

(** [calcDiff] returns whatever its arguments are, and reads neither. *)
Lemma rk4_calcDiff_returns (m : Model) (d : Data) (t : Scalar) (uv : VectorXs) :
  calcDiff m t uv d = (Returned tt, set_dw_du (diagonal_thirds m d) d).
Proof. reflexivity. Qed.

(** The coefficients of [dw_du] after [calcDiff]. *)
Lemma get_diagonal_thirds (m : Model) (d : Data) (i j : nat) :
  rows (dw_du d) = nw_ m -> cols (dw_du d) = 3 * nw_ m ->
  i < nw_ m -> j < 3 * nw_ m ->
  get (diagonal_thirds m d) i j =
  if j =? i then c_0 d
  else if j =? nw_ m + i then c_1 d
  else if j =? 2 * nw_ m + i then c_2 d
  else get (dw_du d) i j.
Proof.
  intros Hr Hc Hi Hj. unfold diagonal_thirds.
  rewrite !get_block_diagonal_fill by (cbn [rows cols block_diagonal_fill mk_matrix]; lia).
  unfold in_block, leftCols, middleCols, rightCols.
  cbn [rows cols block_diagonal_fill mk_matrix
       startRow startCol blockRows blockCols].
  rewrite Hr, Hc. index_cases; try lia; reflexivity.
Qed.

(** The coefficients of the specification's Jacobian. *)
Lemma get_Jacobian (m : Model) (t : Scalar) (i j : nat) :
  i < nw_ m -> j < 3 * nw_ m ->
  get (Jacobian m t) i j =
  if j =? i then basis_c0 t
  else if j =? nw_ m + i then basis_c1 t
  else if j =? 2 * nw_ m + i then basis_c2 t
  else 0%S.
Proof.
  intros Hi Hj. unfold Jacobian, block_row.
  cbn [rows cols mscale Identity mk_matrix].
  rewrite get_mk_matrix by lia.
  index_cases; try lia;
    rewrite get_mscale, get_Identity
      by (cbn [rows cols Identity mk_matrix]; lia);
    index_cases; try lia; ring.
Qed.

Lemma createData_buffers (m : Model) : buffers m (createData m).
Proof.
  constructor; cbn [createData u dw_du].
  - apply length_mk_vector.
  - reflexivity.
  - reflexivity.
  - intros i j Hi Hj _ _ _. unfold Zero. now rewrite get_mk_matrix.
Qed.

Lemma calc_keeps_buffers (m : Model) (d : Data) (t : Scalar) (uv : VectorXs) :
  buffers m d -> buffers m (snd (calc m t uv d)).
Proof.
  intros [H1 H2 H3 H4]. destruct (Nat.eq_dec (length uv) (nu_ m)) as [Hu|Hu].
  - rewrite rk4_calc_returns by assumption. now constructor.
  - rewrite rk4_calc_throws by assumption. now constructor.
Qed.

Lemma calcDiff_keeps_buffers (nw : nat) (d : Data) (t : Scalar)
  (uv : VectorXs) :
  let m := ControlParametrizationModelPolyTwoRK4 nw in
  buffers m d -> buffers m (snd (calcDiff m t uv d)).
Proof.
  intros m [H1 H2 H3 H4]. rewrite rk4_calcDiff_returns.
  constructor; cbn [snd u dw_du set_dw_du]; try assumption.
  intros i j Hi Hj N0 N1 N2.
  rewrite get_diagonal_thirds by (cbn in *; lia).
  index_cases; try lia. now apply H4.
Qed.

Lemma params_keeps_buffers (m : Model) (d : Data) (t : Scalar)
  (wv : VectorXs) :
  buffers m d -> buffers m (snd (params m t wv d)).
Proof.
  intros [H1 H2 H3 H4]. destruct (Nat.eq_dec (length wv) (nw_ m)) as [Hw|Hw].
  - rewrite params_state by assumption.
    constructor; cbn [snd u dw_du set_u]; try assumption.
    unfold tail_assign, head_assign. now rewrite !length_segment_assign.
  - unfold params. apply Nat.eqb_neq in Hw. rewrite Hw. now constructor.
Qed.

(** With buffers of the right shape, after [calc] at time [t], [calcDiff]
    at any time and any parameter vector leaves the Jacobian of time [t]. *)
Lemma calc_then_calcDiff (nw : nat) (d : Data) (t t' : Scalar)
  (uv uv' : VectorXs) :
  let m := ControlParametrizationModelPolyTwoRK4 nw in
  buffers m d -> length uv = nu_ m ->
  exists d1 d2 : Data,
    calc m t uv d = (Returned tt, d1) /\
    calcDiff m t' uv' d1 = (Returned tt, d2) /\
    dw_du d2 = Jacobian m t.
Proof.
  intros m [H1 H2 H3 H4] Hu. eexists. eexists.
  split; [apply rk4_calc_returns; exact Hu|].
  split; [apply rk4_calcDiff_returns|].
  cbn [dw_du set_dw_du].
  apply matrix_ext.
  - apply wf_mk_matrix.
  - apply wf_mk_matrix.
  - cbn. rewrite H2. reflexivity.
  - cbn. rewrite H3. cbn. lia.
  - cbn [rows cols diagonal_thirds block_diagonal_fill mk_matrix dw_du].
    rewrite H2, H3. cbn [nw_ nu_ m ControlParametrizationModelPolyTwoRK4].
    intros i j Hi Hj.
    rewrite get_diagonal_thirds, get_Jacobian by (cbn; assumption || lia).
    cbn [c_0 c_1 c_2 dw_du nw_ m ControlParametrizationModelPolyTwoRK4].
    index_cases; try reflexivity. apply H4; cbn; lia.
Qed.


(** *** [multiplyByJacobian] and [multiplyJacobianTransposeBy] *)

Lemma get_column_thirds (upd : Scalar -> Scalar -> Scalar) (m : Model)
  (d : Data) (A out : MatrixXs) (i j : nat) :
  rows A = rows out -> cols A = nw_ m -> cols out = 3 * nw_ m ->
  i < rows out -> j < 3 * nw_ m ->
  get (column_thirds upd m d A out) i j =
  upd (get out i j)
      (if j <? nw_ m then c_0 d * get A i j
       else if j <? 2 * nw_ m then c_1 d * get A i (j - nw_ m)
       else c_2 d * get A i (j - 2 * nw_ m))%S.
Proof.
  intros Hr Hc Ho Hi Hj. unfold column_thirds.
  rewrite !get_block_update by (cbn [rows cols block_update mk_matrix]; lia).
  unfold in_block, leftCols, middleCols, rightCols.
  cbn [rows cols block_update mk_matrix startRow startCol blockRows blockCols].
  rewrite Ho. replace (3 * nw_ m - nw_ m) with (2 * nw_ m) by lia.
  rewrite !Nat.sub_0_r.
  index_cases; try lia; rewrite !get_mscale by lia; reflexivity.
Qed.

Lemma get_row_thirds (upd : Scalar -> Scalar -> Scalar) (m : Model)
  (d : Data) (A out : MatrixXs) (i j : nat) :
  cols A = cols out -> rows A = nw_ m -> rows out = 3 * nw_ m ->
  i < 3 * nw_ m -> j < cols out ->
  get (row_thirds upd m d A out) i j =
  upd (get out i j)
      (if i <? nw_ m then c_0 d * get A i j
       else if i <? 2 * nw_ m then c_1 d * get A (i - nw_ m) j
       else c_2 d * get A (i - 2 * nw_ m) j)%S.
Proof.
  intros Hc Hr Ho Hi Hj. unfold row_thirds.
  rewrite !get_block_update by (cbn [rows cols block_update mk_matrix]; lia).
  unfold in_block, topRows, middleRows, bottomRows.
  cbn [rows cols block_update mk_matrix startRow startCol blockRows blockCols].
  rewrite Ho. replace (3 * nw_ m - nw_ m) with (2 * nw_ m) by lia.
  rewrite !Nat.sub_0_r.
  index_cases; try lia; rewrite !get_mscale by lia; reflexivity.
Qed.

Lemma multiplyByJacobian_returns (NDEBUG : bool) (m : Model) (d : Data)
  (A out : MatrixXs) (op : AssignmentOp) :
  rows A = rows out -> cols A = nw_ m -> cols out = nu_ m ->
  is_a_AssignmentOp op = true ->
  multiplyByJacobian NDEBUG m d A op out =
  (Returned tt, column_thirds (write_of op) m d A out).
Proof.
  intros Hr Hc Ho Hop. unfold multiplyByJacobian, write_of.
  unfold assert_pretty. rewrite Hop.
  destruct NDEBUG; cbv beta iota delta [bind gets when ret negb];
    rewrite Hr, Hc, Ho, !Nat.eqb_refl; cbn [negb orb];
    unfold is_a_AssignmentOp in Hop;
    (destruct (op =? setto)%Z; [reflexivity|]);
    (destruct (op =? addto)%Z; [reflexivity|]);
    (destruct (op =? rmfrom)%Z; [reflexivity|discriminate Hop]).
Qed.

Lemma multiplyJacobianTransposeBy_returns (NDEBUG : bool) (m : Model)
  (d : Data) (A out : MatrixXs) (op : AssignmentOp) :
  cols A = cols out -> rows A = nw_ m -> rows out = nu_ m ->
  is_a_AssignmentOp op = true ->
  multiplyJacobianTransposeBy NDEBUG m d A op out =
  (Returned tt, row_thirds (write_of op) m d A out).
Proof.
  intros Hc Hr Ho Hop. unfold multiplyJacobianTransposeBy, write_of.
  unfold assert_pretty. rewrite Hop.
  destruct NDEBUG; cbv beta iota delta [bind gets when ret negb];
    rewrite Hr, Hc, Ho, !Nat.eqb_refl; cbn [negb orb];
    unfold is_a_AssignmentOp in Hop;
    (destruct (op =? setto)%Z; [reflexivity|]);
    (destruct (op =? addto)%Z; [reflexivity|]);
    (destruct (op =? rmfrom)%Z; [reflexivity|discriminate Hop]).
Qed.

Lemma multiplyByJacobian_throws (NDEBUG : bool) (m : Model) (d : Data)
  (A out : MatrixXs) (op : AssignmentOp) :
  (rows A =? rows out) && (cols A =? nw_ m) && (cols out =? nu_ m)
    && is_a_AssignmentOp op = false ->
  exists e, multiplyByJacobian NDEBUG m d A op out = (Thrown e, out).
Proof.
  unfold multiplyByJacobian.
  cbv beta iota delta [bind gets when assert_pretty ret].
  destruct NDEBUG; destruct (is_a_AssignmentOp op) eqn:Hop; cbn [negb];
    destruct (rows A =? rows out); destruct (cols A =? nw_ m);
    destruct (cols out =? nu_ m); cbn [negb orb andb]; intros H;
    try discriminate H; try (eexists; reflexivity).
  unfold is_a_AssignmentOp in Hop.
  destruct (op =? setto)%Z; [discriminate Hop|].
  destruct (op =? addto)%Z; [discriminate Hop|].
  destruct (op =? rmfrom)%Z; [discriminate Hop|].
  eexists; reflexivity.
Qed.

Lemma multiplyJacobianTransposeBy_throws (NDEBUG : bool) (m : Model)
  (d : Data) (A out : MatrixXs) (op : AssignmentOp) :
  (cols A =? cols out) && (rows A =? nw_ m) && (rows out =? nu_ m)
    && is_a_AssignmentOp op = false ->
  exists e, multiplyJacobianTransposeBy NDEBUG m d A op out = (Thrown e, out).
Proof.
  unfold multiplyJacobianTransposeBy.
  cbv beta iota delta [bind gets when assert_pretty ret].
  destruct NDEBUG; destruct (is_a_AssignmentOp op) eqn:Hop; cbn [negb];
    destruct (cols A =? cols out); destruct (rows A =? nw_ m);
    destruct (rows out =? nu_ m); cbn [negb orb andb]; intros H;
    try discriminate H; try (eexists; reflexivity).
  unfold is_a_AssignmentOp in Hop.
  destruct (op =? setto)%Z; [discriminate Hop|].
  destruct (op =? addto)%Z; [discriminate Hop|].
  destruct (op =? rmfrom)%Z; [discriminate Hop|].
  eexists; reflexivity.
Qed.

(** C8.  In either build, [multiplyByJacobian] called with
    [A.rows != out.rows], [A.cols != nw] or [out.cols != nu], and
    [multiplyJacobianTransposeBy] called with [A.cols != out.cols],
    [A.rows != nw] or [out.rows != nu], throw the library's exception and
    [out] is as it was; so does either of them when the accumulation mode is
    none of [setto], [addto], [rmfrom]. *)
Theorem jacobian_products_reject (NDEBUG : bool) (m : Model) (d : Data)
  (A out : MatrixXs) (op : AssignmentOp) :
  (rows A <> rows out \/ cols A <> nw_ m \/ cols out <> nu_ m \/
   is_a_AssignmentOp op = false ->
   InvalidArgument (multiplyByJacobian NDEBUG m d A op out) /\
   snd (multiplyByJacobian NDEBUG m d A op out) = out) /\
  (cols A <> cols out \/ rows A <> nw_ m \/ rows out <> nu_ m \/
   is_a_AssignmentOp op = false ->
   InvalidArgument (multiplyJacobianTransposeBy NDEBUG m d A op out) /\
   snd (multiplyJacobianTransposeBy NDEBUG m d A op out) = out).
Proof.
  split; intros H.
  - destruct (multiplyByJacobian_throws NDEBUG m d A out op) as [e He].
    { rewrite !andb_false_iff, !Nat.eqb_neq. tauto. }
    rewrite He. split; [exists e|]; reflexivity.
  - destruct (multiplyJacobianTransposeBy_throws NDEBUG m d A out op)
      as [e He].
    { rewrite !andb_false_iff, !Nat.eqb_neq. tauto. }
    rewrite He. split; [exists e|]; reflexivity.
Qed.

(** C9.  For [A] with [nw] columns, [out] with the rows of [A] and [nu]
    columns, and each of the three accumulation modes, both products
    return, and what [multiplyByJacobian(data, A, out, op)] leaves in [out]
    is the transpose of what
    [multiplyJacobianTransposeBy(data, A^T, out^T, op)] leaves. *)
Theorem jacobian_products_transpose_consistent (NDEBUG : bool) (nw : nat)
  (d : Data) (A out : MatrixXs) (op : AssignmentOp) :
  let m := ControlParametrizationModelPolyTwoRK4 nw in
  cols A = nw_ m -> rows out = rows A -> cols out = nu_ m ->
  is_a_AssignmentOp op = true ->
  fst (multiplyByJacobian NDEBUG m d A op out) = Returned tt /\
  fst (multiplyJacobianTransposeBy NDEBUG m d (transpose A) op (transpose out))
    = Returned tt /\
  snd (multiplyByJacobian NDEBUG m d A op out) =
  transpose
    (snd (multiplyJacobianTransposeBy NDEBUG m d (transpose A) op
                                      (transpose out))).
Proof.
  intros m Hc Hr Ho Hop.
  rewrite multiplyByJacobian_returns by (assumption || now symmetry).
  rewrite multiplyJacobianTransposeBy_returns
    by (cbn [rows cols transpose mk_matrix]; assumption || now symmetry).
  cbn [fst snd]. repeat split.
  cbn [nw_ nu_ m ControlParametrizationModelPolyTwoRK4] in Hc, Ho.
  apply matrix_ext.
  - apply wf_mk_matrix.
  - apply wf_mk_matrix.
  - reflexivity.
  - reflexivity.
  - cbn [rows cols column_thirds block_update mk_matrix].
    intros i j Hi Hj.
    rewrite get_transpose
      by (cbn [rows cols row_thirds block_update transpose mk_matrix]; lia).
    rewrite get_column_thirds, get_row_thirds
      by (cbn [rows cols transpose mk_matrix nw_ m
               ControlParametrizationModelPolyTwoRK4]; lia).
    cbn [nw_ m ControlParametrizationModelPolyTwoRK4].
    rewrite (get_transpose out) by lia.
    index_cases; rewrite get_transpose by lia; reflexivity.
Qed.

(** *** The products are products by the Jacobian of the last [calc] *)

Lemma sum_n_zero (n : nat) (f : nat -> Scalar) :
  (forall k, k < n -> f k = 0%S) -> sum_n n f = 0%S.
Proof.
  induction n as [|n IH]; intros H; cbn; [reflexivity|].
  rewrite IH, H by (intros; try apply H; lia). ring.
Qed.

Lemma sum_n_single (n : nat) (f : nat -> Scalar) (j : nat) :
  j < n -> (forall k, k < n -> k <> j -> f k = 0%S) -> sum_n n f = f j.
Proof.
  induction n as [|n IH]; intros Hj H; [lia|]. cbn.
  destruct (Nat.eq_dec j n) as [->|Hn].
  - rewrite sum_n_zero by (intros; apply H; lia). ring.
  - rewrite IH, (H n) by (intros; try apply H; lia). ring.
Qed.

Lemma rows_Jacobian (m : Model) (t : Scalar) : rows (Jacobian m t) = nw_ m.
Proof. reflexivity. Qed.

Lemma cols_Jacobian (m : Model) (t : Scalar) :
  cols (Jacobian m t) = 3 * nw_ m.
Proof. cbn. lia. Qed.

Lemma get_mat_mul_Jacobian (m : Model) (t : Scalar) (A : MatrixXs) (i j : nat) :
  cols A = nw_ m -> i < rows A -> j < 3 * nw_ m ->
  get (mat_mul A (Jacobian m t)) i j =
  (if j <? nw_ m then basis_c0 t * get A i j
   else if j <? 2 * nw_ m then basis_c1 t * get A i (j - nw_ m)
   else basis_c2 t * get A i (j - 2 * nw_ m))%S.
Proof.
  intros Hc Hi Hj. unfold mat_mul.
  rewrite get_mk_matrix by (rewrite ?cols_Jacobian; lia). rewrite Hc.
  destruct (Nat.ltb_spec j (nw_ m)) as [H1|H1];
    [|destruct (Nat.ltb_spec j (2 * nw_ m)) as [H2|H2]].
  - rewrite (sum_n_single _ _ j) by
      (try lia; intros k Hk Hne; rewrite get_Jacobian by lia;
       index_cases; try lia; ring).
    rewrite get_Jacobian by lia. index_cases; try lia; ring.
  - rewrite (sum_n_single _ _ (j - nw_ m)) by
      (try lia; intros k Hk Hne; rewrite get_Jacobian by lia;
       index_cases; try lia; ring).
    rewrite get_Jacobian by lia. index_cases; try lia; ring.
  - rewrite (sum_n_single _ _ (j - 2 * nw_ m)) by
      (try lia; intros k Hk Hne; rewrite get_Jacobian by lia;
       index_cases; try lia; ring).
    rewrite get_Jacobian by lia. index_cases; try lia; ring.
Qed.

Lemma get_mat_mul_Jacobian_transpose (m : Model) (t : Scalar) (A : MatrixXs)
  (i j : nat) :
  rows A = nw_ m -> i < 3 * nw_ m -> j < cols A ->
  get (mat_mul (transpose (Jacobian m t)) A) i j =
  (if i <? nw_ m then basis_c0 t * get A i j
   else if i <? 2 * nw_ m then basis_c1 t * get A (i - nw_ m) j
   else basis_c2 t * get A (i - 2 * nw_ m) j)%S.
Proof.
  intros Hr Hi Hj. unfold mat_mul.
  assert (HT : forall k, k < nw_ m ->
            get (transpose (Jacobian m t)) i k = get (Jacobian m t) k i)
    by (intros; apply get_transpose; rewrite ?cols_Jacobian, ?rows_Jacobian; lia).
  change (rows (transpose (Jacobian m t))) with (cols (Jacobian m t)).
  change (cols (transpose (Jacobian m t))) with (nw_ m).
  rewrite get_mk_matrix by (rewrite ?cols_Jacobian; lia).
  destruct (Nat.ltb_spec i (nw_ m)) as [H1|H1];
    [|destruct (Nat.ltb_spec i (2 * nw_ m)) as [H2|H2]].
  - rewrite (sum_n_single _ _ i) by
      (try lia; intros k Hk Hne; rewrite HT, get_Jacobian by lia;
       index_cases; try lia; ring).
    rewrite HT, get_Jacobian by lia. index_cases; try lia; ring.
  - rewrite (sum_n_single _ _ (i - nw_ m)) by
      (try lia; intros k Hk Hne; rewrite HT, get_Jacobian by lia;
       index_cases; try lia; ring).
    rewrite HT, get_Jacobian by lia. index_cases; try lia; ring.
  - rewrite (sum_n_single _ _ (i - 2 * nw_ m)) by
      (try lia; intros k Hk Hne; rewrite HT, get_Jacobian by lia;
       index_cases; try lia; ring).
    rewrite HT, get_Jacobian by lia. index_cases; try lia; ring.
Qed.


End RK4Properties.

(** ** The code on concrete rational inputs *)

Section RationalInputs.
Import RationalScalar.

(** *** The LQR model *)

Lemma example_model_shapes : ActionModelLQR.shapes example_model.
Proof. constructor; reflexivity. Qed.


Lemma calcDiff_exact_derivatives_witness :
  ActionModelLQR.shapes example_model /\
  length [1; 0]%S = ActionModelLQR.nx example_model /\
  length [1]%S = ActionModelLQR.nu_ example_model /\
  exists d',
    ActionModelLQR.calcDiff example_model [1; 0]%S [1]%S blank_data
      = (Returned tt, d') /\
    ActionModelLQR.Fx d' = Identity 2 2 /\
    ActionModelLQR.Fu d' = mkMatrix 2 1 [[0]; [1]]%S /\
    ActionModelLQR.Lxx d' = Identity 2 2 /\
    ActionModelLQR.Luu d' = mkMatrix 1 1 [[1]]%S /\
    ActionModelLQR.Lxu d' = Zero 2 1.
Proof.
  split; [exact example_model_shapes|]. split; [reflexivity|].
  split; [reflexivity|].
  destruct (calcDiff_exact_derivatives example_model blank_data
              [1; 0]%S [1]%S example_model_shapes eq_refl eq_refl)
    as (d' & Hrun & HFx & HFu & HLxx & HLuu & HLxu & _).
  exists d'. repeat split; assumption.
Defined.

Lemma calc_terminal_state_cost_witness :
  (length [1; 0]%S = ActionModelLQR.nx example_model /\
   exists d',
     ActionModelLQR.calc_terminal example_model [1; 0]%S blank_data
       = (Returned tt, d') /\
     ActionModelLQR.xnext d' = [1; 0]%S) /\
  (length [1]%S <> ActionModelLQR.nx example_model /\
   InvalidArgument
     (ActionModelLQR.calc_terminal example_model [1]%S blank_data) /\
   snd (ActionModelLQR.calc_terminal example_model [1]%S blank_data)
     = blank_data).
Proof.
  split.
  - split; [reflexivity|].
    destruct (proj1 (calc_terminal_state_cost example_model blank_data
                       [1; 0]%S) eq_refl) as (d' & Hrun & Hx & _).
    exists d'. split; assumption.
  - assert (Hne : length [1]%S <> ActionModelLQR.nx example_model)
      by (cbn; lia).
    split; [exact Hne|].
    exact (proj2 (calc_terminal_state_cost example_model blank_data [1]%S)
                 Hne).
Defined.

(** C3, the failing input.  On the model [ActionModelLQR(1, 1, true)], the
    call [set_LQR(A, B, Q, R, N, f, q, r)] with the [1 x 2] matrix
    [A = [[1, 1]]] and all other arguments of the right shape returns,
    although [A] is not [nx x nx], and replaces the member [A_]: the model no
    longer has the shapes of its data model. *)
Theorem set_LQR_accepts_rectangular_A :
  let m := ActionModelLQR.ActionModelLQR_default 1 1 true in
  let A := matrix_of 1 2 [[1; 1]]%Z in
  let r := ActionModelLQR.set_LQR A (Identity 1 1) (Identity 1 1)
             (Identity 1 1) (Zero 1 1) [0]%S [0]%S [0]%S m in
  ActionModelLQR.shapes m /\
  (rows A, cols A) = (1, 2) /\
  fst r = Returned tt /\
  ActionModelLQR.get_A (snd r) = A /\
  ActionModelLQR.get_A (snd r) <> ActionModelLQR.get_A m /\
  ~ ActionModelLQR.shapes (snd r).
Proof.
  cbv zeta. split; [constructor; reflexivity|]. split; [reflexivity|].
  split; [vm_compute; reflexivity|]. split; [vm_compute; reflexivity|].
  split.
  - intros H. apply (f_equal cols) in H. vm_compute in H. discriminate H.
  - intros H. apply ActionModelLQR.A_cols in H. vm_compute in H.
    discriminate H.
Qed.

(** A call that fails the factorisation check has already overwritten the
    scratch matrix [H_]; the members with an accessor are untouched. *)
Lemma set_LQR_failed_factorisation_overwrites_H :
  let m := ActionModelLQR.ActionModelLQR_default 1 1 true in
  let r := ActionModelLQR.set_LQR (Identity 1 1) (Identity 1 1)
             (matrix_of 1 1 [[-1]]%Z) (Identity 1 1) (Zero 1 1)
             [0]%S [0]%S [0]%S m in
  InvalidArgument r /\
  ActionModelLQR.H_ (snd r) <> ActionModelLQR.H_ m /\
  ActionModelLQR.get_Q (snd r) = ActionModelLQR.get_Q m.
Proof.
  cbv zeta. split; [|split].
  - eexists. vm_compute. reflexivity.
  - intros H. apply (f_equal rows) in H. vm_compute in H. discriminate H.
  - vm_compute. reflexivity.
Qed.

(** *** The RK4 parametrization *)

Import ControlParametrizationModelPolyTwoRK4.



Lemma jacobian_products_reject_witness :
  let A := matrix_of 1 2 [[1; 1]]%Z in
  (cols A <> nw_ rk4_model /\
   InvalidArgument
     (multiplyByJacobian true rk4_model rk4_at_two A setto (Zero 1 3)) /\
   snd (multiplyByJacobian true rk4_model rk4_at_two A setto (Zero 1 3))
     = Zero 1 3) /\
  (is_a_AssignmentOp 7%Z = false /\
   InvalidArgument
     (multiplyJacobianTransposeBy true rk4_model rk4_at_two A 7%Z (Zero 3 2)) /\
   snd (multiplyJacobianTransposeBy true rk4_model rk4_at_two A 7%Z (Zero 3 2))
     = Zero 3 2).
Proof.
  cbv zeta. split.
  - assert (H : cols (matrix_of 1 2 [[1; 1]]%Z) <> nw_ rk4_model)
      by (cbn; lia).
    split; [exact H|].
    exact (proj1 (jacobian_products_reject true rk4_model rk4_at_two
                    (matrix_of 1 2 [[1; 1]]%Z) (Zero 1 3) setto)
                 (or_intror (or_introl H))).
  - split; [reflexivity|].
    exact (proj2 (jacobian_products_reject true rk4_model rk4_at_two
                    (matrix_of 1 2 [[1; 1]]%Z) (Zero 3 2) 7%Z)
                 (or_intror (or_intror (or_intror eq_refl)))).
Defined.

Lemma jacobian_products_transpose_consistent_witness :
  let A := matrix_of 2 1 [[1]; [2]]%Z in
  let out := matrix_of 2 3 [[1; 2; 3]; [4; 5; 6]]%Z in
  cols A = nw_ rk4_model /\ rows out = rows A /\ cols out = nu_ rk4_model /\
  is_a_AssignmentOp addto = true /\
  snd (multiplyByJacobian false rk4_model rk4_at_two A addto out) =
  transpose
    (snd (multiplyJacobianTransposeBy false rk4_model rk4_at_two
            (transpose A) addto (transpose out))).
Proof.
  cbv zeta. repeat (split; [reflexivity|]).
  apply (jacobian_products_transpose_consistent false 1 rk4_at_two
           (matrix_of 2 1 [[1]; [2]]%Z)
           (matrix_of 2 3 [[1; 2; 3]; [4; 5; 6]]%Z) addto
           eq_refl eq_refl eq_refl eq_refl).
Defined.


End RationalInputs.

(** ** Products and inner products with the zero vector *)

Section Algebra.
Context {F : ScalarType} {X : ExactArithmetic F}.

Add Ring ScalarRingAlgebra : (@Scalar_ring F X).

Lemma vget_Zero_vec (n i : nat) : vget (Zero_vec n) i = 0%S.
Proof.
  destruct (Nat.lt_ge_cases i n) as [H|H].
  - unfold Zero_vec. now rewrite vget_mk_vector.
  - unfold vget. apply nth_overflow. unfold Zero_vec.
    now rewrite length_mk_vector.
Qed.

Lemma dot_Zero_vec_r (a : VectorXs) (n : nat) : dot a (Zero_vec n) = 0%S.
Proof.
  unfold dot. apply sum_n_zero. intros. rewrite vget_Zero_vec. ring.
Qed.

Lemma mat_vec_Zero_vec (M : MatrixXs) (n : nat) :
  M *v Zero_vec n = Zero_vec (rows M).
Proof.
  unfold mat_vec, Zero_vec at 2. apply mk_vector_ext. intros i Hi.
  apply sum_n_zero. intros. rewrite vget_Zero_vec. ring.
Qed.

End Algebra.

(** ** Further properties of the LQR action model *)

Section LQRFurther.
Context {F : ScalarType} {X : ExactArithmetic F} {E : Numerics}.
Import ActionModelLQR.

Add Ring ScalarRingLQR : (@Scalar_ring F X).

(** X1.  [calc(data, x, u)] and [calcDiff(data, x, u)] test the size of [x]
    first and the size of [u] next: with [x] of a wrong size they throw the
    exception that names [x], whatever [u]; with [x] right and [u] wrong
    they throw the one that names [u]; in both cases nothing of [data] has
    been written. *)
Theorem calc_calcDiff_wrong_sizes (m : Model) (d : Data) (x u : VectorXs) :
  (length x <> nx m ->
   calc m x u d = (Thrown (mkException (wrong_dimension "x" (nx m))), d) /\
   calcDiff m x u d = (Thrown (mkException (wrong_dimension "x" (nx m))), d))
  /\
  (length x = nx m -> length u <> nu_ m ->
   calc m x u d = (Thrown (mkException (wrong_dimension "u" (nu_ m))), d) /\
   calcDiff m x u d
     = (Thrown (mkException (wrong_dimension "u" (nu_ m))), d)).
Proof.
  split.
  - intros Hx. apply Nat.eqb_neq in Hx. unfold calc, calcDiff. rewrite Hx.
    split; reflexivity.
  - intros Hx Hu. apply Nat.eqb_neq in Hu. unfold calc, calcDiff.
    rewrite Hx, Nat.eqb_refl, Hu. split; reflexivity.
Qed.

(** X2.  The terminal [calcDiff(data, x)]: with [x] of [nx] entries it
    writes [Lxx = Q] and [Lx = q + Q x] and nothing else, so that [Fx],
    [Fu], [Lu], [Luu] and [Lxu] keep what an earlier call left in them; with
    [x] of another size it throws and [data] is untouched. *)
Theorem calcDiff_terminal_writes_state_derivatives
  (m : Model) (d : Data) (x : VectorXs) :
  (length x = nx m ->
   calcDiff_terminal m x d =
   (Returned tt,
    mkData (xnext d) (cost d) (Fx d) (Fu d) (q_ m +v Q_ m *v x) (Lu d)
           (Q_ m) (Luu d) (Lxu d) (R_u_tmp d) (Q_x_tmp d))) /\
  (length x <> nx m ->
   calcDiff_terminal m x d
   = (Thrown (mkException (wrong_dimension "x" (nx m))), d)).
Proof.
  split; intros Hx; unfold calcDiff_terminal.
  - rewrite Hx, Nat.eqb_refl. reflexivity.
  - apply Nat.eqb_neq in Hx. rewrite Hx. reflexivity.
Qed.


(** *** The bulk setter and the constructors *)

Lemma set_LQR_returned (m m' : Model) (A B Q R N : MatrixXs)
  (f q r : VectorXs) :
  set_LQR A B Q R N f q r m = (Returned tt, m') ->
  checked m A B Q R N f q r = true /\
  m' = mkModel (nx m) (nu_ m) (drift_free_ m) A B Q R N f q r
               (cost_hessian m Q R N).
Proof.
  intros H. destruct (checked m A B Q R N f q r) eqn:Hc.
  - split; [reflexivity|].
    rewrite (set_LQR_returns m A B Q R N f q r Hc) in H. now inversion H.
  - destruct (set_LQR_throws m A B Q R N f q r Hc) as [e He].
    rewrite H in He. discriminate He.
Qed.

Lemma checked_sizes (m : Model) (A B Q R N : MatrixXs) (f q r : VectorXs) :
  checked m A B Q R N f q r = true ->
  rows A = nx m /\ rows B = nx m /\
  rows Q = nx m /\ cols Q = nx m /\ rows R = nu_ m /\ cols R = nu_ m /\
  rows N = nx m /\ cols N = nu_ m /\
  length f = nx m /\ length q = nx m /\ length r = nu_ m.
Proof.
  unfold checked. rewrite !andb_true_iff, !Nat.eqb_eq. tauto.
Qed.

(** X5.  Replace or fail: [set_LQR] throws exactly when one of its checks
    fails, and then the two dimensions and all eight matrices and vectors
    that have an accessor are as before the call; when every check passes it
    returns with the eight members equal to its arguments and the
    dimensions and the drift flag unchanged. *)
Theorem set_LQR_replace_or_fail (m : Model) (A B Q R N : MatrixXs)
  (f q r : VectorXs) :
  let res := set_LQR A B Q R N f q r m in
  let m' := snd res in
  (checked m A B Q R N f q r = false ->
   InvalidArgument res /\
   (nx m', nu_ m', drift_free_ m') = (nx m, nu_ m, drift_free_ m) /\
   (get_A m', get_B m', get_Q m', get_R m', get_N m')
     = (get_A m, get_B m, get_Q m, get_R m, get_N m) /\
   (get_f m', get_q m', get_r m') = (get_f m, get_q m, get_r m)) /\
  (checked m A B Q R N f q r = true ->
   fst res = Returned tt /\
   (nx m', nu_ m', drift_free_ m') = (nx m, nu_ m, drift_free_ m) /\
   (get_A m', get_B m', get_Q m', get_R m', get_N m') = (A, B, Q, R, N) /\
   (get_f m', get_q m', get_r m') = (f, q, r)).
Proof.
  cbv zeta. split; intros Hc.
  - destruct (set_LQR_throws m A B Q R N f q r Hc) as [e He].
    split; [exists e; exact He|].
    destruct (set_LQR A B Q R N f q r m) as [o m'] eqn:Hr. cbn [fst snd] in *.
    subst o.
    destruct (set_LQR_throw_keeps_accessors m m' A B Q R N f q r e Hr)
      as (-> & -> & -> & -> & -> & -> & -> & -> & -> & ->).
    assert (Hd : drift_free_ m' = drift_free_ m).
    { revert Hr. unfold set_LQR. run_stateful. split_conditions; cbn;
        intros Hr; inversion Hr; reflexivity. }
    rewrite Hd. repeat split; reflexivity.
  - rewrite (set_LQR_returns m A B Q R N f q r Hc). cbn.
    repeat split; reflexivity.
Qed.

(** X6.  A call of [set_LQR] that returns leaves a model with the shapes of
    the data model exactly when [A] has [nx] columns and [B] has [nu]
    columns: these two numbers are the only ones the checks do not read. *)
Theorem set_LQR_returned_shapes (m m' : Model) (A B Q R N : MatrixXs)
  (f q r : VectorXs) :
  set_LQR A B Q R N f q r m = (Returned tt, m') ->
  (shapes m' <-> cols A = nx m /\ cols B = nu_ m).
Proof.
  intros H. apply set_LQR_returned in H. destruct H as [Hc ->].
  apply checked_sizes in Hc.
  destruct Hc as (HA & HB & HQr & HQc & HRr & HRc & HNr & HNc & Hf & Hq & Hr).
  split.
  - intros []. cbn in *. split; assumption.
  - intros [HAc HBc]. constructor; cbn; assumption.
Qed.

(** X7.  The constructors establish the shapes of the data model.  A model
    built from [(A, B, Q, R, N, f, q, r)] or from [(A, B, Q, R, N)] has
    [nx = A.cols()], [nu = B.cols()] and, when the constructor returns,
    conforming shapes and the arguments as members, with [f = q = r = 0]
    and the drift-free flag set in the second form; the model built from
    [(nx, nu, drift_free)] has conforming shapes too. *)
Theorem constructors_establish_shapes :
  (forall (A B Q R N : MatrixXs) (f q r : VectorXs) (m : Model),
     ActionModelLQR_full A B Q R N f q r = (Returned tt, m) ->
     shapes m /\
     (nx m, nu_ m, drift_free_ m) = (cols A, cols B, false) /\
     (get_A m, get_B m, get_Q m, get_R m, get_N m) = (A, B, Q, R, N) /\
     (get_f m, get_q m, get_r m) = (f, q, r)) /\
  (forall (A B Q R N : MatrixXs) (m : Model),
     ActionModelLQR_drift_free A B Q R N = (Returned tt, m) ->
     shapes m /\
     (nx m, nu_ m, drift_free_ m) = (cols A, cols B, true) /\
     (get_A m, get_B m, get_Q m, get_R m, get_N m) = (A, B, Q, R, N) /\
     (get_f m, get_q m, get_r m)
       = (Zero_vec (cols A), Zero_vec (cols A), Zero_vec (cols B))) /\
  (forall (nx nu : nat) (drift_free : bool),
     shapes (ActionModelLQR_default nx nu drift_free)).
Proof.
  split; [|split].
  - intros A B Q R N f q r m H. unfold ActionModelLQR_full in H.
    apply set_LQR_returned in H. destruct H as [Hc ->].
    apply checked_sizes in Hc. cbn [nx nu_ uninitialised] in Hc.
    destruct Hc as (HA & HB & HQr & HQc & HRr & HRc & HNr & HNc & Hf & Hq & Hr).
    split; [constructor; cbn; assumption || reflexivity|].
    repeat split; reflexivity.
  - intros A B Q R N m H. unfold ActionModelLQR_drift_free in H.
    cbv zeta in H. cbn [nx nu_ uninitialised] in H.
    apply set_LQR_returned in H. destruct H as [Hc ->].
    apply checked_sizes in Hc. cbn [nx nu_ uninitialised] in Hc.
    destruct Hc as (HA & HB & HQr & HQc & HRr & HRc & HNr & HNc & Hf & Hq & Hr).
    split; [constructor; cbn; assumption || reflexivity|].
    repeat split; reflexivity.
  - intros n p df. constructor; cbn [ActionModelLQR_default nx nu_ A_ B_ Q_
      R_ N_ f_ q_ r_ rows cols Identity Zero mk_matrix]; try reflexivity.
    + destruct df; apply length_mk_vector.
    + apply length_mk_vector.
    + apply length_mk_vector.
Qed.

Lemma get_cost_hessian (m : Model) (Q R N : MatrixXs) (i j : nat) :
  i < nx m + nu_ m -> j < nx m + nu_ m ->
  get (cost_hessian m Q R N) i j =
  if i <? rows Q
  then (if j <? cols Q then get Q i j else get N i (j - cols Q))
  else (if j <? rows N then get (transpose N) (i - rows Q) j
        else get R (i - rows Q) (j - rows N)).
Proof.
  intros Hi Hj. unfold cost_hessian, comma_init4.
  cbn [rows cols Zero transpose mk_matrix]. now rewrite get_mk_matrix.
Qed.

(** X8.  The matrix [[Q, N], [N^T, R]] that [set_LQR] assembles and tests
    is symmetric exactly when [Q] and [R] are: the two off-diagonal blocks
    are transposes of each other by construction. *)
Theorem cost_hessian_symmetric_iff (m : Model) (Q R N : MatrixXs) :
  rows Q = nx m -> cols Q = nx m -> rows R = nu_ m -> cols R = nu_ m ->
  rows N = nx m -> cols N = nu_ m ->
  (symmetric (cost_hessian m Q R N) <-> symmetric Q /\ symmetric R).
Proof.
  intros HQr HQc HRr HRc HNr HNc. unfold symmetric.
  change (rows (cost_hessian m Q R N)) with (nx m + nu_ m).
  change (cols (cost_hessian m Q R N)) with (nx m + nu_ m).
  split.
  - intros H. split; intros i j Hi Hj.
    + specialize (H i j). rewrite !get_cost_hessian in H by lia.
      rewrite HQr, HQc in H.
      destruct (Nat.ltb_spec i (nx m)); destruct (Nat.ltb_spec j (nx m));
        try lia. apply H; lia.
    + specialize (H (nx m + i) (nx m + j)).
      rewrite !get_cost_hessian in H by lia. rewrite HQr, HNr in H.
      destruct (Nat.ltb_spec (nx m + i) (nx m));
        destruct (Nat.ltb_spec (nx m + j) (nx m)); try lia.
      replace (nx m + i - nx m) with i in H by lia.
      replace (nx m + j - nx m) with j in H by lia. apply H; lia.
  - intros [HQ HR] i j Hi Hj. rewrite !get_cost_hessian by lia.
    rewrite HQr, HQc, HNr.
    destruct (Nat.ltb_spec i (nx m)); destruct (Nat.ltb_spec j (nx m)).
    + apply HQ; lia.
    + rewrite get_transpose by lia. reflexivity.
    + rewrite get_transpose by lia. reflexivity.
    + apply HR; lia.
Qed.

End LQRFurther.

(** ** Further properties of the RK4 parametrization *)

Section RK4Further.
Context {F : ScalarType} {X : ExactArithmetic F}.
Import ControlParametrizationModelPolyTwoRK4.

Add Ring ScalarRingRK4Further : (@Scalar_ring F X).

Lemma basis_at_half :
  basis_c0 shalf = 0%S /\ basis_c1 shalf = 1%S /\ basis_c2 shalf = 0%S.
Proof.
  assert (H2 : basis_c2 shalf = 0%S).
  { unfold basis_c2.
    transitivity ((shalf + shalf) * shalf - shalf)%S; [ring|].
    rewrite shalf_double. ring. }
  unfold basis_c0, basis_c1. rewrite H2. repeat split.
  - transitivity (1 - (shalf + shalf))%S; [ring|]. rewrite shalf_double. ring.
  - transitivity (shalf + shalf)%S; [ring|]. apply shalf_double.
Qed.

Lemma vget_combination (c0 c1 c2 : Scalar) (p0 p1 p2 : VectorXs) (i : nat) :
  length p0 = length p2 -> length p1 = length p2 -> i < length p2 ->
  vget (c2 *: p2 +v c1 *: p1 +v c0 *: p0) i
  = (c2 * vget p2 i + c1 * vget p1 i + c0 * vget p0 i)%S.
Proof.
  intros H0 H1 Hi. unfold vadd, vscale.
  rewrite !vget_mk_vector by (rewrite ?length_mk_vector; lia). reflexivity.
Qed.

Lemma length_combination (c0 c1 c2 : Scalar) (p0 p1 p2 : VectorXs) :
  length (c2 *: p2 +v c1 *: p1 +v c0 *: p0) = length p2.
Proof. unfold vadd, vscale. now rewrite !length_mk_vector. Qed.

Lemma length_segment (v : VectorXs) (s n : nat) : length (segment v s n) = n.
Proof. apply length_mk_vector. Qed.

Lemma vget_segment (v : VectorXs) (s n i : nat) :
  i < n -> vget (segment v s n) i = vget v (s + i).
Proof. intros. unfold segment. now rewrite vget_mk_vector. Qed.


Lemma get_accumulate (upd : Scalar -> Scalar -> Scalar) (out P : MatrixXs)
  (i j : nat) :
  i < rows out -> j < cols out ->
  get (accumulate upd out P) i j = upd (get out i j) (get P i j).
Proof. intros. unfold accumulate. now rewrite get_mk_matrix. Qed.


(** *** [params], [convertBounds] and the buffers *)

Lemma vget_app (a b : VectorXs) (i : nat) :
  vget (a ++ b) i = if i <? length a then vget a i else vget b (i - length a).
Proof.
  unfold vget. destruct (Nat.ltb_spec i (length a)).
  - now apply app_nth1.
  - now apply app_nth2.
Qed.

(** Writing a vector of [n] entries into the head, the middle segment and
    the tail of a vector of [3 n] entries leaves three copies of it. *)
Lemma three_copies (n : nat) (v src : VectorXs) :
  length v = 3 * n -> length src = n ->
  tail_assign (segment_assign (head_assign v n src) n n src) n src
  = src ++ src ++ src.
Proof.
  intros Hv Hs. unfold tail_assign, head_assign. apply vector_ext.
  - rewrite !length_segment_assign, !length_app. lia.
  - rewrite !length_segment_assign. intros i Hi.
    rewrite !vget_segment_assign by (rewrite ?length_segment_assign; lia).
    rewrite !vget_app, Hv, Hs.
    index_cases; try lia; f_equal; lia.
Qed.

(** X13.  On a data object whose [u] has [3 nw] entries, [params(data, t, w)]
    with [w] of [nw] entries overwrites all of [u] with three copies of [w]
    and writes no other buffer; with [w] of another size it throws and the
    data is untouched.  The time [t] plays no part. *)
Theorem params_writes_three_copies (nw : nat) (d : Data) (t : Scalar)
  (wv : VectorXs) :
  let m := ControlParametrizationModelPolyTwoRK4 nw in
  length (u d) = nu_ m ->
  (length wv = nw ->
   params m t wv d = (Returned tt, set_u (wv ++ wv ++ wv) d)) /\
  (length wv <> nw ->
   params m t wv d = (Thrown (mkException (wrong_dimension "w" nw)), d)).
Proof.
  intros m Hu. split; intros Hw.
  - rewrite params_state by exact Hw.
    cbn [nw_ nu_ m ControlParametrizationModelPolyTwoRK4] in *.
    now rewrite three_copies.
  - unfold params. cbn [nw_ m ControlParametrizationModelPolyTwoRK4].
    apply Nat.eqb_neq in Hw. rewrite Hw. reflexivity.
Qed.

(** X14.  [convertBounds(w_lb, w_ub, u_lb, u_ub)]: with [u_lb] and [u_ub]
    of [3 nw] entries and [w_lb] and [w_ub] of [nw] entries it overwrites
    [u_lb] with three copies of [w_lb] and [u_ub] with three copies of
    [w_ub]; when one of the four sizes is wrong it throws and neither
    output has been written. *)
Theorem convertBounds_replicates (nw : nat) (w_lb w_ub u_lb u_ub : VectorXs) :
  let m := ControlParametrizationModelPolyTwoRK4 nw in
  (length u_lb = nu_ m -> length u_ub = nu_ m ->
   length w_lb = nw_ m -> length w_ub = nw_ m ->
   convertBounds m w_lb w_ub (u_lb, u_ub) =
   (Returned tt, (w_lb ++ w_lb ++ w_lb, w_ub ++ w_ub ++ w_ub))) /\
  (length u_lb <> nu_ m \/ length u_ub <> nu_ m \/
   length w_lb <> nw_ m \/ length w_ub <> nw_ m ->
   InvalidArgument (convertBounds m w_lb w_ub (u_lb, u_ub)) /\
   snd (convertBounds m w_lb w_ub (u_lb, u_ub)) = (u_lb, u_ub)).
Proof.
  intros m. unfold convertBounds, InvalidArgument, m.
  cbn [nw_ nu_ ControlParametrizationModelPolyTwoRK4]. split.
  - intros H1 H2 H3 H4.
    cbv beta iota delta [bind gets when ret modify fst snd].
    rewrite H1, H2, H3, H4, !Nat.eqb_refl. cbn [negb].
    rewrite !three_copies by assumption. reflexivity.
  - intros H.
    cbv beta iota delta [bind gets when ret modify throw_pretty fst snd].
    destruct (Nat.eqb_spec (length u_lb) (3 * nw)); cbn [negb];
      [|split; [eexists|]; reflexivity].
    destruct (Nat.eqb_spec (length u_ub) (3 * nw)); cbn [negb];
      [|split; [eexists|]; reflexivity].
    destruct (Nat.eqb_spec (length w_lb) nw); cbn [negb];
      [|split; [eexists|]; reflexivity].
    destruct (Nat.eqb_spec (length w_ub) nw); cbn [negb];
      [|split; [eexists|]; reflexivity].
    exfalso. tauto.
Qed.

Lemma run_calls_keep_buffers (nw : nat) (cs : list Call) (d : Data) :
  let m := ControlParametrizationModelPolyTwoRK4 nw in
  buffers m d -> buffers m (run_calls m cs d).
Proof.
  intros m. revert d. induction cs as [|c cs IH]; intros d Hb; [exact Hb|].
  cbn [run_calls fold_left]. apply IH. destruct c as [t uv|t uv|t wv];
    cbn [run_call].
  - now apply calc_keeps_buffers.
  - now apply calcDiff_keeps_buffers.
  - now apply params_keeps_buffers.
Qed.

(** X15.  The buffers keep their shape for the life of a data object: after
    any sequence of calls of [calc], [calcDiff] and [params] on the object
    [createData] returned, with arguments of any size and whether the calls
    throw or not, [u] has [nu] entries, [dw_du] is [nw x nu] and [dw_du] is
    zero off the three diagonals that [calcDiff] writes. *)
Theorem buffers_kept_by_every_call_sequence (nw : nat) (cs : list Call) :
  let m := ControlParametrizationModelPolyTwoRK4 nw in
  let d := run_calls m cs (createData m) in
  length (u d) = nu_ m /\
  rows (dw_du d) = nw_ m /\ cols (dw_du d) = nu_ m /\
  (forall i j, i < nw_ m -> j < nu_ m ->
     j <> i -> j <> nw_ m + i -> j <> 2 * nw_ m + i ->
     get (dw_du d) i j = 0%S).
Proof.
  intros m d.
  destruct (run_calls_keep_buffers nw cs (createData m)
              (createData_buffers m)) as [H1 H2 H3 H4].
  repeat split; assumption.
Qed.


(** X17.  [calcDiff] writes the [3 nw] coefficients on the three diagonals
    of [dw_du] and nothing else: on a Jacobian buffer of [nw x 3 nw]
    coefficients every other coefficient keeps its value, zero or not, and
    no other buffer of the data changes. *)
Theorem calcDiff_writes_only_the_diagonals (nw : nat) (d : Data) (t : Scalar)
  (uv : VectorXs) (i j : nat) :
  let m := ControlParametrizationModelPolyTwoRK4 nw in
  rows (dw_du d) = nw_ m -> cols (dw_du d) = nu_ m ->
  i < nw_ m -> j < nu_ m ->
  let d' := snd (calcDiff m t uv d) in
  get (dw_du d') i j =
    (if j =? i then c_0 d
     else if j =? nw + i then c_1 d
     else if j =? 2 * nw + i then c_2 d
     else get (dw_du d) i j) /\
  (rows (dw_du d'), cols (dw_du d')) = (rows (dw_du d), cols (dw_du d)) /\
  (w d', u d', c_0 d', c_1 d', c_2 d', tmp_t2 d')
    = (w d, u d, c_0 d, c_1 d, c_2 d, tmp_t2 d).
Proof.
  intros m Hr Hc Hi Hj d'. unfold d'. rewrite rk4_calcDiff_returns.
  cbn [snd dw_du set_dw_du w u c_0 c_1 c_2 tmp_t2].
  split; [|split; reflexivity].
  apply (get_diagonal_thirds m d i j); assumption.
Qed.

End RK4Further.

(** ** The further properties on concrete rational inputs *)

Section FurtherInputs.
Import RationalScalar.

(** *** The LQR model *)

Lemma calc_calcDiff_wrong_sizes_witness :
  (length [1]%S <> ActionModelLQR.nx example_model /\
   ActionModelLQR.calc example_model [1]%S [1]%S blank_data
   = (Thrown (mkException (ActionModelLQR.wrong_dimension "x" 2)),
      blank_data)) /\
  (length [1; 0]%S = ActionModelLQR.nx example_model /\
   length [1; 1]%S <> ActionModelLQR.nu_ example_model /\
   ActionModelLQR.calcDiff example_model [1; 0]%S [1; 1]%S blank_data
   = (Thrown (mkException (ActionModelLQR.wrong_dimension "u" 1)),
      blank_data)).
Proof.
  assert (Hx : length [1]%S <> ActionModelLQR.nx example_model)
    by (cbn; lia).
  assert (Hu : length [1; 1]%S <> ActionModelLQR.nu_ example_model)
    by (cbn; lia).
  split.
  - split; [exact Hx|].
    exact (proj1 (proj1 (calc_calcDiff_wrong_sizes example_model blank_data
                           [1]%S [1]%S) Hx)).
  - split; [reflexivity|]. split; [exact Hu|].
    exact (proj2 (proj2 (calc_calcDiff_wrong_sizes example_model blank_data
                           [1; 0]%S [1; 1]%S) eq_refl Hu)).
Defined.

Lemma calcDiff_terminal_writes_state_derivatives_witness :
  (length [1; 0]%S = ActionModelLQR.nx example_model /\
   ActionModelLQR.Lxx
     (snd (ActionModelLQR.calcDiff_terminal example_model [1; 0]%S
             blank_data)) = Identity 2 2) /\
  (length [1]%S <> ActionModelLQR.nx example_model /\
   snd (ActionModelLQR.calcDiff_terminal example_model [1]%S blank_data)
   = blank_data).
Proof.
  split.
  - split; [reflexivity|].
    rewrite (proj1 (calcDiff_terminal_writes_state_derivatives example_model
                      blank_data [1; 0]%S) eq_refl).
    reflexivity.
  - assert (Hx : length [1]%S <> ActionModelLQR.nx example_model)
      by (cbn; lia).
    split; [exact Hx|].
    rewrite (proj2 (calcDiff_terminal_writes_state_derivatives example_model
                      blank_data [1]%S) Hx).
    reflexivity.
Defined.


Lemma set_LQR_replace_or_fail_witness :
  let m := ActionModelLQR.ActionModelLQR_default 1 1 true in
  let I1 := Identity 1 1 in
  (ActionModelLQR.checked m I1 I1 (matrix_of 1 1 [[-1]]%Z) I1 (Zero 1 1)
     [0]%S [0]%S [0]%S = false /\
   ActionModelLQR.get_Q
     (snd (ActionModelLQR.set_LQR I1 I1 (matrix_of 1 1 [[-1]]%Z) I1
             (Zero 1 1) [0]%S [0]%S [0]%S m)) = ActionModelLQR.get_Q m) /\
  (ActionModelLQR.checked m I1 I1 (matrix_of 1 1 [[2]]%Z) I1 (Zero 1 1)
     [0]%S [0]%S [0]%S = true /\
   ActionModelLQR.get_Q
     (snd (ActionModelLQR.set_LQR I1 I1 (matrix_of 1 1 [[2]]%Z) I1
             (Zero 1 1) [0]%S [0]%S [0]%S m)) = matrix_of 1 1 [[2]]%Z).
Proof.
  cbv zeta. split.
  - assert (Hc : ActionModelLQR.checked
                   (ActionModelLQR.ActionModelLQR_default 1 1 true)
                   (Identity 1 1) (Identity 1 1) (matrix_of 1 1 [[-1]]%Z)
                   (Identity 1 1) (Zero 1 1) [0]%S [0]%S [0]%S = false)
      by (vm_compute; reflexivity).
    split; [exact Hc|].
    destruct (proj1 (set_LQR_replace_or_fail
                       (ActionModelLQR.ActionModelLQR_default 1 1 true)
                       (Identity 1 1) (Identity 1 1) (matrix_of 1 1 [[-1]]%Z)
                       (Identity 1 1) (Zero 1 1) [0]%S [0]%S [0]%S) Hc)
      as (_ & _ & HM & _).
    exact (f_equal (fun p => snd (fst (fst p))) HM).
  - assert (Hc : ActionModelLQR.checked
                   (ActionModelLQR.ActionModelLQR_default 1 1 true)
                   (Identity 1 1) (Identity 1 1) (matrix_of 1 1 [[2]]%Z)
                   (Identity 1 1) (Zero 1 1) [0]%S [0]%S [0]%S = true)
      by (vm_compute; reflexivity).
    split; [exact Hc|].
    destruct (proj2 (set_LQR_replace_or_fail
                       (ActionModelLQR.ActionModelLQR_default 1 1 true)
                       (Identity 1 1) (Identity 1 1) (matrix_of 1 1 [[2]]%Z)
                       (Identity 1 1) (Zero 1 1) [0]%S [0]%S [0]%S) Hc)
      as (_ & _ & HM & _).
    exact (f_equal (fun p => snd (fst (fst p))) HM).
Defined.

Lemma set_LQR_returned_shapes_witness :
  let m := ActionModelLQR.ActionModelLQR_default 1 1 true in
  let I1 := Identity 1 1 in
  let m' := snd (ActionModelLQR.set_LQR I1 I1 I1 I1 (Zero 1 1)
                   [0]%S [0]%S [0]%S m) in
  ActionModelLQR.set_LQR I1 I1 I1 I1 (Zero 1 1) [0]%S [0]%S [0]%S m
    = (Returned tt, m') /\
  (ActionModelLQR.shapes m' <->
   cols I1 = ActionModelLQR.nx m /\ cols I1 = ActionModelLQR.nu_ m).
Proof.
  cbv zeta.
  assert (Hc : ActionModelLQR.checked
                 (ActionModelLQR.ActionModelLQR_default 1 1 true)
                 (Identity 1 1) (Identity 1 1) (Identity 1 1) (Identity 1 1)
                 (Zero 1 1) [0]%S [0]%S [0]%S = true)
    by (vm_compute; reflexivity).
  assert (Hr := set_LQR_returns _ _ _ _ _ _ _ _ _ Hc).
  rewrite Hr. cbn [snd]. split; [reflexivity|].
  exact (set_LQR_returned_shapes _ _ _ _ _ _ _ _ _ _ Hr).
Defined.

Lemma constructors_establish_shapes_witness :
  let built := ActionModelLQR.ActionModelLQR_drift_free
                 (Identity 2 2) (mkMatrix 2 1 [[0]; [1]]%S) (Identity 2 2)
                 (mkMatrix 1 1 [[1]]%S) (Zero 2 1) in
  fst built = Returned tt /\ ActionModelLQR.shapes (snd built).
Proof.
  cbv zeta.
  assert (Hc : ActionModelLQR.checked
                 (ActionModelLQR.uninitialised 2 1 true)
                 (Identity 2 2) (mkMatrix 2 1 [[0]; [1]]%S) (Identity 2 2)
                 (mkMatrix 1 1 [[1]]%S) (Zero 2 1)
                 (Zero_vec 2) (Zero_vec 2) (Zero_vec 1) = true)
    by (vm_compute; reflexivity).
  assert (Hr := set_LQR_returns _ _ _ _ _ _ _ _ _ Hc).
  change (ActionModelLQR.set_LQR (Identity 2 2) (mkMatrix 2 1 [[0]; [1]]%S)
            (Identity 2 2) (mkMatrix 1 1 [[1]]%S) (Zero 2 1)
            (Zero_vec 2) (Zero_vec 2) (Zero_vec 1)
            (ActionModelLQR.uninitialised 2 1 true))
    with (ActionModelLQR.ActionModelLQR_drift_free
            (Identity 2 2) (mkMatrix 2 1 [[0]; [1]]%S) (Identity 2 2)
            (mkMatrix 1 1 [[1]]%S) (Zero 2 1)) in Hr.
  split; [now rewrite Hr|].
  rewrite Hr at 1. cbn [snd].
  exact (proj1 (proj1 (proj2 constructors_establish_shapes) _ _ _ _ _ _ Hr)).
Defined.

Lemma cost_hessian_symmetric_iff_witness :
  let m := example_model in
  (rows (Identity 2 2) = 2 /\ cols (Zero 2 1) = 1) /\
  (symmetric (ActionModelLQR.cost_hessian m (Identity 2 2) (Identity 1 1)
                (Zero 2 1))
   <-> symmetric (Identity 2 2) /\ symmetric (Identity 1 1)).
Proof.
  cbv zeta. split; [split; reflexivity|].
  exact (cost_hessian_symmetric_iff example_model (Identity 2 2)
           (Identity 1 1) (Zero 2 1) eq_refl eq_refl eq_refl eq_refl
           eq_refl eq_refl).
Defined.

(** *** The RK4 parametrization *)

Import ControlParametrizationModelPolyTwoRK4.



Lemma params_writes_three_copies_witness :
  let wv := vector_of [7]%Z in
  length (u rk4_at_two) = nu_ rk4_model /\
  (length wv = 1 /\
   params rk4_model 0%S wv rk4_at_two
   = (Returned tt, set_u (wv ++ wv ++ wv) rk4_at_two)) /\
  (length (vector_of [7; 8]%Z) <> 1 /\
   params rk4_model 0%S (vector_of [7; 8]%Z) rk4_at_two
   = (Thrown (mkException (wrong_dimension "w" 1)), rk4_at_two)).
Proof.
  cbv zeta. split; [reflexivity|]. split.
  - split; [reflexivity|].
    exact (proj1 (params_writes_three_copies 1 rk4_at_two 0%S
                    (vector_of [7]%Z) eq_refl) eq_refl).
  - assert (H : length (vector_of [7; 8]%Z) <> 1) by (cbn; lia).
    split; [exact H|].
    exact (proj2 (params_writes_three_copies 1 rk4_at_two 0%S
                    (vector_of [7; 8]%Z) eq_refl) H).
Defined.

Lemma convertBounds_replicates_witness :
  let lb := vector_of [-1]%Z in
  let ub := vector_of [1]%Z in
  (length (Zero_vec 3) = nu_ rk4_model /\ length lb = nw_ rk4_model /\
   length ub = nw_ rk4_model /\
   convertBounds rk4_model lb ub (Zero_vec 3, Zero_vec 3)
   = (Returned tt, (lb ++ lb ++ lb, ub ++ ub ++ ub))) /\
  (length (Zero_vec 2) <> nu_ rk4_model /\
   snd (convertBounds rk4_model lb ub (Zero_vec 3, Zero_vec 2))
   = (Zero_vec 3, Zero_vec 2)).
Proof.
  cbv zeta. split.
  - repeat (split; [reflexivity|]).
    exact (proj1 (convertBounds_replicates 1 (vector_of [-1]%Z)
                    (vector_of [1]%Z) (Zero_vec 3) (Zero_vec 3))
                 eq_refl eq_refl eq_refl eq_refl).
  - assert (H : length (Zero_vec 2) <> nu_ rk4_model) by (cbn; lia).
    split; [exact H|].
    exact (proj2 (proj2 (convertBounds_replicates 1 (vector_of [-1]%Z)
                           (vector_of [1]%Z) (Zero_vec 3) (Zero_vec 2))
                        (or_intror (or_introl H)))).
Defined.


Lemma calcDiff_writes_only_the_diagonals_witness :
  let d := set_dw_du (matrix_of 1 3 [[9; 9; 9]]%Z) rk4_at_two in
  let d4 := set_dw_du (matrix_of 2 6 [[0; 5; 0; 0; 0; 0];
                                       [0; 0; 0; 0; 0; 0]]%Z)
              (createData (ControlParametrizationModelPolyTwoRK4 2)) in
  (rows (dw_du d) = 1 /\ cols (dw_du d) = 3 /\
   get (dw_du (snd (calcDiff rk4_model 0%S [] d))) 0 1 = c_1 rk4_at_two) /\
  (rows (dw_du d4) = 2 /\ cols (dw_du d4) = 6 /\
   get (dw_du (snd (calcDiff (ControlParametrizationModelPolyTwoRK4 2)
                      0%S [] d4))) 0 1 = of_Z 5).
Proof.
  cbv zeta.
  assert (H01 : 0 < 1) by lia. assert (H13 : 1 < 3) by lia.
  assert (H02 : 0 < 2) by lia. assert (H16 : 1 < 6) by lia.
  split.
  - repeat (split; [reflexivity|]).
    exact (proj1 (calcDiff_writes_only_the_diagonals 1
                    (set_dw_du (matrix_of 1 3 [[9; 9; 9]]%Z) rk4_at_two)
                    0%S [] 0 1 eq_refl eq_refl H01 H13)).
  - repeat (split; [reflexivity|]).
    exact (proj1 (calcDiff_writes_only_the_diagonals 2
                    (set_dw_du (matrix_of 2 6 [[0; 5; 0; 0; 0; 0];
                                                [0; 0; 0; 0; 0; 0]]%Z)
                       (createData (ControlParametrizationModelPolyTwoRK4 2)))
                    0%S [] 0 1 eq_refl eq_refl H02 H16)).
Defined.

End FurtherInputs.

(** ** The RK4 basis and the round trip when the scalar type rounds *)

Section Rounding.
Import ControlParametrizationModelPolyTwoRK4.


End Rounding.

Section Double.
Import ControlParametrizationModelPolyTwoRK4.
Import PrimFloat Binary64.






End Double.
